(** * Colour-scheme resolution of reaviz ([src/common/color/helper.ts])

    A shallow embedding of [rangeHelper], [getColor], [getValueScale],
    [getColorSchemeForProperty] and [createColorSchemeValueScales], and the
    properties of them that the specification states.

    The helper is dynamically typed: every argument is an arbitrary
    JavaScript value, and the code branches on [typeof], [Array.isArray],
    truthiness and [=== undefined].  The embedding therefore works over a
    universe of JavaScript values, makes the [TypeError]s of property reads
    and calls explicit, and threads a world through the calls of functions
    the helper does not define itself (the user's colour callback, the scale
    constructors of d3-scale). *)

From Stdlib Require Import ZArith Lia Bool Ascii String List DecimalString.
From stdpp Require Import base list strings.

Local Open Scope string_scope.
Local Open Scope Z_scope.

(** ** JavaScript values *)

(** Numbers are the integral ones: indices, lengths and integral data.
    Fractions, NaN and the infinities play no part in the helper's own
    computations.  A function value is a closure: a code pointer and the
    values it captured; what it does when called is up to the host. *)
#[warnings="-register-all"]
Inductive value : Type :=
  | VUndefined
  | VNull
  | VBool (b : bool)
  | VNum (z : Z)
  | VStr (s : string)
  | VArr (items : list value)
  | VObj (fields : list (string * value))
  | VFun (code : nat) (env : list value).

Inductive exn : Type :=
  | TypeError
  | Raised (v : value).

(** The outcome of an evaluation: a value, or a thrown exception. *)
Inductive outcome (A : Type) : Type :=
  | Done (a : A)
  | Throw (e : exn).
Arguments Done {A} a.
Arguments Throw {A} e.

Definition obind {A B} (o : outcome A) (k : A -> outcome B) : outcome B :=
  match o with
  | Done a => k a
  | Throw e => Throw e
  end.

(** ** Primitive operations of the language *)

(** [ToBoolean]. *)
Definition truthy (v : value) : bool :=
  match v with
  | VUndefined | VNull => false
  | VBool b => b
  | VNum z => negb (z =? 0)
  | VStr s => negb (String.eqb s "")
  | VArr _ | VObj _ | VFun _ _ => true
  end.

Definition typeof (v : value) : string :=
  match v with
  | VUndefined => "undefined"
  | VNull | VArr _ | VObj _ => "object"
  | VBool _ => "boolean"
  | VNum _ => "number"
  | VStr _ => "string"
  | VFun _ _ => "function"
  end.

(** [Array.isArray]. *)
Definition isArray (v : value) : bool :=
  match v with VArr _ => true | _ => false end.

Definition isFunction (v : value) : bool :=
  match v with VFun _ _ => true | _ => false end.

(** [v === undefined]. *)
Definition is_undefined (v : value) : bool :=
  match v with VUndefined => true | _ => false end.

(** [v === undefined || v === null]. *)
Definition nullish (v : value) : bool :=
  match v with VUndefined | VNull => true | _ => false end.

(** The canonical decimal spelling of an array index. *)
Definition index_key (i : nat) : string :=
  NilEmpty.string_of_uint (Nat.to_uint i).

(** The position a property key denotes among [n] indexed elements. *)
Definition key_index (n : nat) (k : string) : option nat :=
  find (fun i => String.eqb (index_key i) k) (seq 0 n).

Fixpoint assoc (k : string) (fields : list (string * value)) : option value :=
  match fields with
  | [] => None
  | (k', v) :: rest => if String.eqb k k' then Some v else assoc k rest
  end.

Definition chars (s : string) : list value :=
  map (fun c => VStr (String c EmptyString)) (list_ascii_of_string s).

(** [a[i]] for a numeric index: out of range reads give [undefined]. *)
Definition element (items : list value) (i : Z) : value :=
  if i <? 0 then VUndefined
  else nth (Z.to_nat i) items VUndefined.

(** The own properties of a value that is neither [null], [undefined] nor a
    function: the length and the indices of a string or an array, the
    fields of an object.  What a value inherits from the built-in
    prototypes ([toString], [constructor] and the like) is not an own
    property; a property read finds it through the host (see [get_prop]). *)
Definition own_prop (v : value) (k : string) : value :=
  match v with
  | VStr s =>
      if String.eqb k "length" then VNum (Z.of_nat (String.length s))
      else match key_index (String.length s) k with
           | Some i => nth i (chars s) VUndefined
           | None => VUndefined
           end
  | VArr items =>
      if String.eqb k "length" then VNum (Z.of_nat (List.length items))
      else match key_index (List.length items) k with
           | Some i => nth i items VUndefined
           | None => VUndefined
           end
  | VObj fields =>
      match assoc k fields with
      | Some x => x
      | None => VUndefined
      end
  | _ => VUndefined
  end.

(** Whether the value has the property itself. *)
Definition has_own (v : value) (k : string) : bool :=
  match v with
  | VStr s =>
      String.eqb k "length" ||
      match key_index (String.length s) k with Some _ => true | None => false end
  | VArr items =>
      String.eqb k "length" ||
      match key_index (List.length items) k with Some _ => true | None => false end
  | VObj fields =>
      match assoc k fields with Some _ => true | None => false end
  | _ => false
  end.

(** ** The host: what the helper imports and calls *)

(** The helper calls functions it does not define: the colour callback a
    caller passes as [colorScheme], the scale constructor passed as [scale],
    and its imports [scaleOrdinal], [scaleQuantile] (d3-scale), [extent]
    (d3-array), [uniqueBy] ([../utils]) and the table [schemes]
    ([./schemes]).  A host says what those are, and what values inherit
    from the built-in prototypes: [host_inherited v k] is the member [v]
    finds under the name [k] on its prototype chain, [undefined] when there
    is none.  Calling a closure may read and change the world; [uniqueBy]
    and [extent] are pure but may throw. *)
Class Host : Type := {
  world : Type;
  host_call : nat -> list value -> value -> list value ->
              world -> outcome value * world;
  host_fn_prop : nat -> list value -> string -> value;
  host_fn_keys : nat -> list value -> list string;
  host_inherited : value -> string -> value;
  schemes : list (string * value);
  scaleOrdinal : value;
  scaleQuantile : value;
  uniqueBy : value -> list (value -> outcome value) -> outcome value;
  extent : value -> outcome value
}.

(** Computations that may call into the host. *)
Definition M `{Host} (A : Type) : Type := world -> outcome A * world.

Definition ret `{Host} {A} (a : A) : M A := fun w => (Done a, w).

Definition throw `{Host} {A} (e : exn) : M A := fun w => (Throw e, w).

Definition bind `{Host} {A B} (m : M A) (k : A -> M B) : M B :=
  fun w =>
    match m w with
    | (Done a, w') => k a w'
    | (Throw e, w') => (Throw e, w')
    end.

Definition lift `{Host} {A} (o : outcome A) : M A := fun w => (o, w).

Notation "'let*' x ':=' m 'in' k" := (bind m (fun x => k))
  (at level 10, x name, m at level 200, k at level 200, only parsing).

Notation "'let?' x ':=' o 'in' k" := (obind o (fun x => k))
  (at level 10, x name, o at level 200, k at level 200, only parsing).

Section Helper.
Context `{Host}.

(** [v[k]]: a [TypeError] on [null] and [undefined]; otherwise the own
    property when there is one, else the inherited member. *)
Definition get_prop (v : value) (k : string) : outcome value :=
  match v with
  | VUndefined | VNull => Throw TypeError
  | VFun code env => Done (host_fn_prop code env k)
  | _ => Done (if has_own v k then own_prop v k else host_inherited v k)
  end.

(** [f.call(this, ...args)]: a [TypeError] when [f] is not a function. *)
Definition call (f this : value) (args : list value) : M value :=
  match f with
  | VFun code env => host_call code env this args
  | _ => throw TypeError
  end.

(** *** [maxIndex] of d3-array *)

(** [ToNumber] on the operands the relational operators meet here; [None]
    is NaN.  Strings and objects, whose conversion needs parsing, are taken
    as NaN: a series whose [data.length] is not a number is outside the
    model. *)
Definition to_number (v : value) : option Z :=
  match v with
  | VNum z => Some z
  | VNull => Some 0
  | VBool b => Some (if b then 1 else 0)
  | _ => None
  end.

(** [a < b]. *)
Definition js_lt (a b : value) : bool :=
  match to_number a, to_number b with
  | Some x, Some y => x <? y
  | _, _ => false
  end.

(** [a >= b]. *)
Definition js_ge (a b : value) : bool :=
  match to_number a, to_number b with
  | Some x, Some y => y <=? x
  | _, _ => false
  end.

(** The loop of [maxIndex(values, valueof)]: [index] is the position of the
    head of [values], [max] and [best] the running maximum and its
    position.  A later element replaces the maximum only when strictly
    greater. *)
Fixpoint maxIndex_from (valueof : value -> outcome value) (values : list value)
    (index : Z) (max : value) (best : Z) : outcome Z :=
  match values with
  | [] => Done best
  | d :: rest =>
      let? v := valueof d in
      if negb (nullish v) && (js_lt max v || (is_undefined max && js_ge v v))
      then maxIndex_from valueof rest (index + 1) v index
      else maxIndex_from valueof rest (index + 1) max best
  end.

Definition maxIndex (values : list value) (valueof : value -> outcome value)
    : outcome Z :=
  maxIndex_from valueof values 0 VUndefined (-1).

(** *** [rangeHelper] *)

(** The callback [rangeHelper] maps over the series. *)
Definition rangeHelper_item (attribute : string) (r : value) (i : nat)
    : outcome value :=
  if truthy r then
    let? ra := get_prop r attribute in
    if negb (is_undefined ra) then Done ra
    else
      let? rd := get_prop r "data" in
      if truthy rd then
        let? rda := get_prop rd attribute in
        if negb (is_undefined rda) then Done rda else Done (VNum (Z.of_nat i))
      else Done (VNum (Z.of_nat i))
  else Done (VNum (Z.of_nat i)).

(** [Array.prototype.map] with a callback of the element and its index. *)
Fixpoint map_from (f : value -> nat -> outcome value) (items : list value)
    (i : nat) : outcome (list value) :=
  match items with
  | [] => Done []
  | r :: rest =>
      let? x := f r i in
      let? xs := map_from f rest (S i) in
      Done (x :: xs)
  end.

(** The code pointer under which a host that implements its own [map]
    receives the callback of [rangeHelper]. *)
Definition rangeHelper_cb : nat := 0%nat.

(** [point.map((r, i) => ...)].  On an array this is the built-in [map]; on
    anything else the [map] property is read and called, which throws for
    [undefined], [null] and values without a callable [map]. *)
Definition rangeHelper (point : value) (attribute : string) : M value :=
  match point with
  | VArr items =>
      lift (let? xs := map_from (rangeHelper_item attribute) items 0 in
            Done (VArr xs))
  | _ =>
      let* m := lift (get_prop point "map") in
      call m point [VFun rangeHelper_cb [VStr attribute]]
  end.

(** *** [getColor] *)

(** [Partial<ColorHelperProps>].  A missing field reads as [undefined];
    the three fields with a default are optional. *)
Record ColorHelperProps : Type := {
  colorScheme : value;
  point : value;
  data : value;
  index : value;
  active : value;
  scale : option value;
  domain : value;
  key : value;
  attribute : option string;
  isMultiSeries : option bool
}.

(** Lines 65-67: a string for which [schemes[colorScheme]] is truthy is
    replaced by what was read.  The table is a plain object, so that the
    read also finds what the table inherits. *)
Definition namedScheme (colorScheme : value) : value :=
  match colorScheme with
  | VStr name =>
      match get_prop (VObj schemes) name with
      | Done found => if truthy found then found else colorScheme
      | Throw _ => colorScheme
      end
  | _ => colorScheme
  end.

(** The accessor [(d) => d.data.length] handed to [maxIndex]. *)
Definition series_length (d : value) : outcome value :=
  let? dd := get_prop d "data" in
  get_prop dd "length".

(** Lines 70-78: the domain the scale is built over. *)
Definition getColor_domain (p : ColorHelperProps) : M value :=
  let attribute := default "key" (attribute p) in
  let isMultiSeries := default false (isMultiSeries p) in
  if negb (truthy (domain p)) then
    let* data :=
      match data p with
      | VArr series =>
          if isMultiSeries then
            let* maxIdx := lift (maxIndex series series_length) in
            let maxVal := element series maxIdx in
            lift (get_prop maxVal "data")
          else ret (data p)
      | _ => ret (data p)
      end in
    rangeHelper data attribute
  else ret (domain p).

(** Line 80: the key looked up in the scale. *)
Definition getColor_key (p : ColorHelperProps) : outcome value :=
  if negb (is_undefined (key p)) then Done (key p)
  else get_prop (point p) (default "key" (attribute p)).

(** Line 82: [scale(colorScheme).domain(domain)(key)]. *)
Definition applyScale (scale colorScheme domain key : value) : M value :=
  let* s := call scale VUndefined [colorScheme] in
  let* m := lift (get_prop s "domain") in
  let* s' := call m s [domain] in
  call s' VUndefined [key].

Definition getColor (p : ColorHelperProps) : M value :=
  let scale := default scaleOrdinal (scale p) in
  let colorScheme := namedScheme (colorScheme p) in
  match colorScheme with
  | VArr _ =>
      let* domain := getColor_domain p in
      let* key := lift (getColor_key p) in
      applyScale scale colorScheme domain key
  | VFun _ _ => call colorScheme VUndefined [point p; index p; active p]
  | _ => ret colorScheme
  end.

(** *** [getValueScale] *)

(** The closure [getValueScale] returns: [(point) => ...] together with the
    three variables it captures. *)
Record ColorSchemeValueScale : Type := {
  vs_valueDomain : value;
  vs_colorScheme : value;
  vs_emptyColor : value
}.

(** Lines 104-110: [extent(uniqueBy(data, (d) => d.data, (d) => d.value))]. *)
Definition valueDomain (data : value) : outcome value :=
  let? unique :=
    uniqueBy data [fun d => get_prop d "data"; fun d => get_prop d "value"] in
  extent unique.

Definition getValueScale (data colorScheme emptyColor : value)
    : outcome ColorSchemeValueScale :=
  let? valueDomain := valueDomain data in
  Done {| vs_valueDomain := valueDomain;
          vs_colorScheme := colorScheme;
          vs_emptyColor := emptyColor |}.

(** Calling the closure with [point]. *)
Definition runValueScale (vs : ColorSchemeValueScale) (point : value)
    : M value :=
  match point with
  | VUndefined | VNull => ret (vs_emptyColor vs)
  | _ =>
      getColor {| scale := Some scaleQuantile;
                  domain := vs_valueDomain vs;
                  key := point;
                  colorScheme := vs_colorScheme vs;
                  point := VUndefined;
                  data := VUndefined;
                  index := VUndefined;
                  active := VUndefined;
                  attribute := None;
                  isMultiSeries := None |}
  end.

(** *** [getColorSchemeForProperty] *)

(** [schemeItem?.[colorSchemeProperty]]. *)
Definition optional_prop (v : value) (k : string) : value :=
  match get_prop v k with
  | Done x => x
  | Throw _ => VUndefined
  end.

Definition getColorSchemeForProperty (colorScheme : value)
    (colorSchemeProperty : string) : value :=
  match colorScheme with
  | VArr items =>
      VArr (map (fun schemeItem =>
                   if String.eqb (typeof schemeItem) "object"
                   then optional_prop schemeItem colorSchemeProperty
                   else schemeItem) items)
  | _ => colorScheme
  end.

(** *** [createColorSchemeValueScales] *)

(** [new Set(names)] spread back into an array: the names in the order of
    their first occurrence. *)
Definition set_add (seen : list string) (name : string) : list string :=
  if existsb (String.eqb name) seen then seen else (seen ++ [name])%list.

Definition unique_names (names : list string) : list string :=
  fold_left set_add names [].

(** The array index a property name spells, if any: a canonical decimal
    numeral below 2^32 - 1. *)
Definition array_index (k : string) : option N :=
  match NilEmpty.uint_of_string k with
  | Some u =>
      let n := N.of_uint u in
      if String.eqb (NilEmpty.string_of_uint (N.to_uint n)) k
         && (n <? 4294967295)%N
      then Some n else None
  | None => None
  end.

Fixpoint insert_index (x : N * string) (l : list (N * string))
    : list (N * string) :=
  match l with
  | [] => [x]
  | y :: rest =>
      if (fst x <=? fst y)%N then x :: l else y :: insert_index x rest
  end.

(** The order in which the own property names of an object are enumerated:
    array indices first, in ascending order, then the other names in the
    order they were set. *)
Definition enumeration_order (names : list string) : list string :=
  (map snd
     (fold_right insert_index []
        (omap (fun k => match array_index k with
                        | Some n => Some (n, k)
                        | None => None
                        end) names))
   ++ filter (fun k => array_index k = None) names)%list.

(** [Object.keys]: a [TypeError] on [null] and [undefined]; the indices of a
    string or an array; the names of an object, whose fields are listed in
    the order they were set, in enumeration order. *)
Definition object_keys (v : value) : outcome (list string) :=
  match v with
  | VUndefined | VNull => Throw TypeError
  | VStr s => Done (map index_key (seq 0 (String.length s)))
  | VArr items => Done (map index_key (seq 0 (List.length items)))
  | VObj fields => Done (enumeration_order (unique_names (map fst fields)))
  | VFun code env => Done (host_fn_keys code env)
  | _ => Done []
  end.

(** [items.flatMap(Object.keys)]. *)
Fixpoint flatMap_keys (items : list value) : outcome (list string) :=
  match items with
  | [] => Done []
  | item :: rest =>
      let? names := object_keys item in
      let? more := flatMap_keys rest in
      Done (names ++ more)%list
  end.

(** [Map.prototype.set] on a map kept in insertion order. *)
Fixpoint map_set {V} (k : string) (v : V) (m : list (string * V))
    : list (string * V) :=
  match m with
  | [] => [(k, v)]
  | (k', v') :: rest =>
      if String.eqb k k' then (k, v) :: rest else (k', v') :: map_set k v rest
  end.

(** The [forEach] over the property names, filling [valueScales]. *)
Fixpoint forEach_property (data colorScheme emptyColor : value)
    (colorSchemeProperties : list string)
    (valueScales : list (string * ColorSchemeValueScale))
    : outcome (list (string * ColorSchemeValueScale)) :=
  match colorSchemeProperties with
  | [] => Done valueScales
  | key :: rest =>
      let? valueScale :=
        getValueScale data (getColorSchemeForProperty colorScheme key)
          emptyColor in
      forEach_property data colorScheme emptyColor rest
        (map_set key valueScale valueScales)
  end.

(** [Array.isArray(colorScheme) && typeof colorScheme[0] === 'object']. *)
Definition isColorSchemeObjectArray (colorScheme : value) : bool :=
  match colorScheme with
  | VArr items => String.eqb (typeof (element items 0)) "object"
  | _ => false
  end.

Definition createColorSchemeValueScales (data colorScheme emptyColor : value)
    : outcome (list (string * ColorSchemeValueScale)) :=
  let valueScales := [] in
  match colorScheme with
  | VArr items =>
      if isColorSchemeObjectArray colorScheme then
        let? names := flatMap_keys items in
        let colorSchemeProperties := unique_names names in
        forEach_property data colorScheme emptyColor colorSchemeProperties
          valueScales
      else
        let? valueScale := getValueScale data colorScheme emptyColor in
        Done (map_set "fill" valueScale valueScales)
  | _ =>
      let? valueScale := getValueScale data colorScheme emptyColor in
      Done (map_set "fill" valueScale valueScales)
  end.

End Helper.

(** ** Props and their updates *)

(** Props with every field left out. *)
Definition no_props : ColorHelperProps :=
  {| colorScheme := VUndefined; point := VUndefined; data := VUndefined;
     index := VUndefined; active := VUndefined; scale := None;
     domain := VUndefined; key := VUndefined; attribute := None;
     isMultiSeries := None |}.

Definition with_colorScheme (v : value) (p : ColorHelperProps) :=
  {| colorScheme := v; point := point p; data := data p; index := index p;
     active := active p; scale := scale p; domain := domain p; key := key p;
     attribute := attribute p; isMultiSeries := isMultiSeries p |}.

Definition with_point (v : value) (p : ColorHelperProps) :=
  {| colorScheme := colorScheme p; point := v; data := data p;
     index := index p; active := active p; scale := scale p;
     domain := domain p; key := key p; attribute := attribute p;
     isMultiSeries := isMultiSeries p |}.

Definition with_data (v : value) (p : ColorHelperProps) :=
  {| colorScheme := colorScheme p; point := point p; data := v;
     index := index p; active := active p; scale := scale p;
     domain := domain p; key := key p; attribute := attribute p;
     isMultiSeries := isMultiSeries p |}.

Definition with_index (v : value) (p : ColorHelperProps) :=
  {| colorScheme := colorScheme p; point := point p; data := data p;
     index := v; active := active p; scale := scale p; domain := domain p;
     key := key p; attribute := attribute p;
     isMultiSeries := isMultiSeries p |}.

Definition with_isMultiSeries (b : bool) (p : ColorHelperProps) :=
  {| colorScheme := colorScheme p; point := point p; data := data p;
     index := index p; active := active p; scale := scale p;
     domain := domain p; key := key p; attribute := attribute p;
     isMultiSeries := Some b |}.

(** The props [getValueScale]'s closure passes to [getColor]. *)
Definition valueScale_props `{Host} (vs : ColorSchemeValueScale)
    (point : value) : ColorHelperProps :=
  {| scale := Some scaleQuantile; domain := vs_valueDomain vs; key := point;
     colorScheme := vs_colorScheme vs; point := VUndefined;
     data := VUndefined; index := VUndefined; active := VUndefined;
     attribute := None; isMultiSeries := None |}.

(** ** Vocabulary of the statements *)

(** The position [maxIndex] settles on, over the lengths of the series:
    [m] is the running maximum, [best] its position, [i] the position of the
    head of [lens]. *)
Fixpoint longest_from (lens : list nat) (i m best : nat) : nat :=
  match lens with
  | [] => best
  | n :: rest =>
      if (m <? n)%nat then longest_from rest (S i) n i
      else longest_from rest (S i) m best
  end.

Definition longest (lens : list nat) : nat :=
  match lens with
  | [] => 0%nat
  | n :: rest => longest_from rest 1 n 0
  end.

(** [k] is the first position of a greatest length. *)
Definition first_longest (lens : list nat) (k : nat) : Prop :=
  exists n, lens !! k = Some n /\
    forall j n', lens !! j = Some n' ->
      (n' <= n)%nat /\ ((j < k)%nat -> (n' < n)%nat).

Section Vocabulary.
Context `{Host}.

(** The entry the specification gives for the element [r] at position [i]:
    [r[attribute]] when that is defined, else [r.data[attribute]] when [r]
    has nested data that defines it, else the index. *)
Definition spec_domain_entry (attribute : string) (r : value)
    (i : nat) : value :=
  let direct := optional_prop r attribute in
  let nested := optional_prop r "data" in
  if negb (is_undefined direct) then direct
  else if truthy nested && negb (is_undefined (optional_prop nested attribute))
       then optional_prop nested attribute
       else VNum (Z.of_nat i).

(** The rows of a series: its [data] field, when that is an array. *)
Definition rows_of (s : value) : option (list value) :=
  match get_prop s "data" with
  | Done (VArr rows) => Some rows
  | _ => None
  end.

Definition row_count (s : value) : nat :=
  match rows_of s with
  | Some rows => List.length rows
  | None => 0%nat
  end.

Definition is_series (s : value) : bool :=
  match rows_of s with Some _ => true | None => false end.

(** A domain is given, or can be derived without a [TypeError]: [data] is an
    array and, with [isMultiSeries], a non-empty array of series whose
    [data] fields are arrays. *)
Definition domain_supplied (p : ColorHelperProps) : bool :=
  truthy (domain p) ||
  match data p with
  | VArr series =>
      if default false (isMultiSeries p)
      then match series with [] => false | _ => forallb is_series series end
      else true
  | _ => false
  end.

(** A key is given, or can be read off the point. *)
Definition key_supplied (p : ColorHelperProps) : bool :=
  negb (is_undefined (key p)) || negb (nullish (point p)).

Definition well_supplied (p : ColorHelperProps) : bool :=
  match namedScheme (colorScheme p) with
  | VArr _ => domain_supplied p && key_supplied p
  | _ => true
  end.

(** [Object.keys] where it does not throw. *)
Definition own_keys (v : value) : list string :=
  match object_keys v with
  | Done names => names
  | Throw _ => []
  end.

Definition palette_items (colorScheme : value) : list value :=
  match colorScheme with
  | VArr items => items
  | _ => []
  end.

(** The scale [createColorSchemeValueScales] stores under a property. *)
Definition property_scale (d colorScheme emptyColor : value) (k : string)
    : ColorSchemeValueScale :=
  {| vs_valueDomain := d;
     vs_colorScheme := getColorSchemeForProperty colorScheme k;
     vs_emptyColor := emptyColor |}.

(** A computation whose outcome does not depend on the world and that
    leaves the world as it found it. *)
Definition pure_det {A} (m : M A) : Prop :=
  exists r : outcome A, forall w : world, m w = (r, w).

End Vocabulary.

(** ** Built-in members *)

Module Builtin.

(** [Object.prototype.toString], the member of the built-in prototypes that
    the hosts below provide: every plain object inherits it.  Called on
    [this], it names the class of [this]. *)
Definition c_toString : nat := 100%nat.

Definition class_name (this : value) : string :=
  match this with
  | VUndefined => "Undefined"
  | VNull => "Null"
  | VBool _ => "Boolean"
  | VNum _ => "Number"
  | VStr _ => "String"
  | VArr _ => "Array"
  | VObj _ => "Object"
  | VFun _ _ => "Function"
  end.

Definition toString (this : value) : value :=
  VStr ("[object " ++ class_name this ++ "]").

Definition inherited (v : value) (k : string) : value :=
  match v with
  | VObj _ => if String.eqb k "toString" then VFun c_toString [] else VUndefined
  | _ => VUndefined
  end.

End Builtin.

(** ** A host: d3's scales *)

Module D3.

(** SameValueZero on primitives, the equality of [Map], [Set] and
    [includes].  Objects are equal only to themselves; the value universe
    has no identities, so an object is taken to differ from every other. *)
Definition same_key (a b : value) : bool :=
  match a, b with
  | VUndefined, VUndefined | VNull, VNull => true
  | VBool x, VBool y => Bool.eqb x y
  | VNum x, VNum y => x =? y
  | VStr x, VStr y => String.eqb x y
  | _, _ => false
  end.

Definition add_key (seen : list value) (v : value) : list value :=
  if existsb (same_key v) seen then seen else (seen ++ [v])%list.

(** [Array.from]. *)
Definition array_from (v : value) : outcome (list value) :=
  match v with
  | VUndefined | VNull => Throw TypeError
  | VArr items => Done items
  | VStr s => Done (chars s)
  | _ => Done []
  end.

(** [for (const x of v)]. *)
Definition iterate (v : value) : outcome (list value) :=
  match v with
  | VArr items => Done items
  | VStr s => Done (chars s)
  | _ => Throw TypeError
  end.

Fixpoint position (d : value) (domain : list value) (i : nat) : option nat :=
  match domain with
  | [] => None
  | x :: rest => if same_key d x then Some i else position d rest (S i)
  end.

(** The ordinal scale of d3-scale, which the helper imports (in the words of
    the specification it "maps discrete keys to positions in a finite
    output palette by lookup").  A key that is not in the domain is
    appended to it, and positions wrap around the palette. *)
Definition ordinal_lookup (range domain : list value) (d : value) : value :=
  let i := match position d domain 0 with
           | Some i => i
           | None => List.length domain
           end in
  match range with
  | [] => VUndefined
  | _ => nth (i mod List.length range) range VUndefined
  end.

Definition ordinal_domain (v : value) : outcome (list value) :=
  let? items := iterate v in
  Done (fold_left add_key items []).

(** The thresholds of a quantile scale over an ascending domain, kept as the
    numerators over the common denominator [n], the size of the palette:
    the [k]-th threshold is the interpolated quantile at [k / n]. *)
Definition threshold_num (domain : list Z) (n k : nat) : Z :=
  let m := List.length domain in
  let pos := ((m - 1) * k)%nat in
  let i0 := (pos / n)%nat in
  let v0 := nth i0 domain 0 in
  let v1 := nth (S i0) domain v0 in
  v0 * Z.of_nat n + (v1 - v0) * Z.of_nat (pos mod n).

Fixpoint insert_sorted (x : Z) (l : list Z) : list Z :=
  match l with
  | [] => [x]
  | y :: rest => if x <=? y then x :: l else y :: insert_sorted x rest
  end.

Definition numeric_domain (items : list value) : list Z :=
  fold_right insert_sorted []
    (omap (fun v => if nullish v then None else to_number v) items).

(** The quantile scale of d3-scale (in the words of the specification it
    "bins continuous values into ranked groups over a numeric domain, each
    group mapped to one output value"), in exact arithmetic on integral
    data. *)
Definition quantile_lookup (range : list value) (domain : list Z) (x : value)
    : value :=
  match (if nullish x then None else to_number x) with
  | None => VUndefined
  | Some z =>
      let n := Nat.max 1 (List.length range) in
      let below k := match domain with
                     | [] => false
                     | _ => threshold_num domain n k <=? z * Z.of_nat n
                     end in
      nth (List.length (filter below (seq 1 (n - 1)))) range VUndefined
  end.

Definition numbers (domain : list value) : list Z :=
  omap to_number domain.

(** The closures of the two scales: the constructor, a scale with its
    palette and domain, and the [domain] method of a scale. *)
Definition c_scaleOrdinal : nat := 1%nat.
Definition c_ordinal : nat := 2%nat.
Definition c_ordinal_domain : nat := 3%nat.
Definition c_scaleQuantile : nat := 4%nat.
Definition c_quantile : nat := 5%nat.
Definition c_quantile_domain : nat := 6%nat.

Definition scale_state (env : list value) : list value * list value :=
  match env with
  | [VArr range; VArr domain] => (range, domain)
  | _ => ([], [])
  end.

(** [initRange]: one argument is the palette, two are domain and palette. *)
Definition construct (scale_code : nat) (domain_of : value -> outcome (list value))
    (args : list value) : outcome value :=
  match args with
  | [] => Done (VFun scale_code [VArr []; VArr []])
  | [range] =>
      let? r := array_from range in
      Done (VFun scale_code [VArr r; VArr []])
  | domain :: range :: _ =>
      let? r := array_from range in
      let? d := domain_of domain in
      Done (VFun scale_code [VArr r; VArr d])
  end.

Definition quantile_domain (v : value) : outcome (list value) :=
  let? items := iterate v in
  Done (map VNum (numeric_domain items)).

Definition d3_call (code : nat) (env : list value) (this : value)
    (args : list value) : outcome value :=
  let (range, domain) := scale_state env in
  if Nat.eqb code c_scaleOrdinal then construct c_ordinal ordinal_domain args
  else if Nat.eqb code c_scaleQuantile then
    construct c_quantile quantile_domain args
  else if Nat.eqb code c_ordinal then
    Done (ordinal_lookup range domain (hd VUndefined args))
  else if Nat.eqb code c_quantile then
    Done (quantile_lookup range (numbers domain) (hd VUndefined args))
  else if Nat.eqb code c_ordinal_domain then
    match args with
    | [] => Done (VArr domain)
    | d :: _ =>
        let? d' := ordinal_domain d in
        Done (VFun c_ordinal [VArr range; VArr d'])
    end
  else if Nat.eqb code c_quantile_domain then
    match args with
    | [] => Done (VArr domain)
    | d :: _ =>
        let? d' := quantile_domain d in
        Done (VFun c_quantile [VArr range; VArr d'])
    end
  else if Nat.eqb code Builtin.c_toString then Done (Builtin.toString this)
  else Done VUndefined.

Definition d3_fn_prop (code : nat) (env : list value) (k : string) : value :=
  if String.eqb k "domain" then
    if Nat.eqb code c_ordinal then VFun c_ordinal_domain env
    else if Nat.eqb code c_quantile then VFun c_quantile_domain env
    else VUndefined
  else VUndefined.

(** Modelled from the spec: [uniqueBy] of [../utils], the "de-duplication
    helper over a dataset keyed by a projection function": the accessors are
    applied level by level to nested arrays, and the values reached are
    collected without repetition. *)
Fixpoint uniqueBy_from (accessors : list (value -> outcome value))
    (arr : list value) (result : list value) : outcome (list value) :=
  match accessors with
  | [] =>
      match arr with
      | [] => Done result
      | _ => Throw (Raised (VStr "Accessor not found"))
      end
  | acc :: deeper =>
      fold_left
        (fun r a =>
           let? result := r in
           let? val := acc a in
           match val with
           | VArr inner => uniqueBy_from deeper inner result
           | _ => Done (add_key result val)
           end)
        arr (Done result)
  end.

Definition uniqueBy_model (data : value)
    (accessors : list (value -> outcome value)) : outcome value :=
  let? arr := iterate data in
  let? result := uniqueBy_from accessors arr [] in
  Done (VArr result).

(** [extent] of d3-array on integral data: [[min, max]], or two
    [undefined]s when there is no number. *)
Definition d3_extent (values : value) : outcome value :=
  let? items := iterate values in
  match numeric_domain items with
  | [] => Done (VArr [VUndefined; VUndefined])
  | lo :: rest => Done (VArr [VNum lo; VNum (List.last rest lo)])
  end.

(** No named schemes are registered; the world is trivial, since the scales
    are pure. *)
#[export] Instance d3 : Host := {|
  world := unit;
  host_call code env this args w := (d3_call code env this args, w);
  host_fn_prop := d3_fn_prop;
  host_fn_keys _ _ := [];
  host_inherited := Builtin.inherited;
  schemes := [];
  scaleOrdinal := VFun c_scaleOrdinal [];
  scaleQuantile := VFun c_scaleQuantile [];
  uniqueBy := uniqueBy_model;
  extent := d3_extent
|}.

End D3.

(** ** A host with a colour callback *)

Module Sample.

(** The callback [(point, index) => index % 2 === 0 ? "even" : "odd"], in a
    world that counts how often it was called, next to d3's scales. *)
Definition c_stripes : nat := 7%nat.

Definition stripes (args : list value) : value :=
  match args with
  | _ :: VNum i :: _ => if Z.even i then VStr "even" else VStr "odd"
  | _ => VStr "odd"
  end.

#[export] Instance counting : Host := {|
  world := nat;
  host_call code env this args w :=
    if Nat.eqb code c_stripes then (Done (stripes args), S w)
    else (D3.d3_call code env this args, w);
  host_fn_prop := D3.d3_fn_prop;
  host_fn_keys _ _ := [];
  host_inherited := Builtin.inherited;
  schemes := [("cybertron", VArr [VStr "#4C86FF"; VStr "#40D3F4"])];
  scaleOrdinal := VFun D3.c_scaleOrdinal [];
  scaleQuantile := VFun D3.c_scaleQuantile [];
  uniqueBy := D3.uniqueBy_model;
  extent := D3.d3_extent
|}.

(** The same callback in a world it leaves alone. *)
#[export] Instance quiet : Host := {|
  world := nat;
  host_call code env this args w :=
    if Nat.eqb code c_stripes then (Done (stripes args), w)
    else (D3.d3_call code env this args, w);
  host_fn_prop := D3.d3_fn_prop;
  host_fn_keys _ _ := [];
  host_inherited := Builtin.inherited;
  schemes := [("cybertron", VArr [VStr "#4C86FF"; VStr "#40D3F4"])];
  scaleOrdinal := VFun D3.c_scaleOrdinal [];
  scaleQuantile := VFun D3.c_scaleQuantile [];
  uniqueBy := D3.uniqueBy_model;
  extent := D3.d3_extent
|}.

End Sample.

(** ** Example data *)

Definition cell (name : string) (v : Z) : value :=
  VObj [("key", VStr name); ("value", VNum v)].

Definition readings : value :=
  VArr [VObj [("key", VStr "mon"); ("data", VArr [cell "am" 0; cell "pm" 40])];
        VObj [("key", VStr "tue"); ("data", VArr [cell "am" 100; cell "pm" 40])]].

Definition heat : value := VArr [VStr "white"; VStr "orange"; VStr "red"].

Definition heat_scale : ColorSchemeValueScale :=
  {| vs_valueDomain := VArr [VNum 0; VNum 100];
     vs_colorScheme := heat;
     vs_emptyColor := VStr "grey" |}.

Definition keyed (name : string) : value := VObj [("key", VStr name)].

Definition rgb : value := VArr [VStr "red"; VStr "green"; VStr "blue"].

(** Two series, of two and of five rows. *)
Definition row (n : Z) : value := VObj [("key", VNum n); ("data", VNum (n * n))].

Definition short_series : value :=
  VObj [("key", VStr "short"); ("data", VArr [row 1; row 2])].

Definition long_series : value :=
  VObj [("key", VStr "long");
        ("data", VArr [row 3; row 4; row 5; row 6; row 7])].

Definition styled_palette : value :=
  VArr [VObj [("fill", VStr "red"); ("stroke", VStr "black")];
        VObj [("fill", VStr "blue"); ("stroke", VStr "grey")]].

(** ** [getColorSchemeStyles] *)

Section Styles.
Context `{Host}.

(** The reduction over the entries of the map: each step builds
    [{ ...acc, [key]: valueScale(point) }], which keeps the properties of
    [acc] and sets [key].  An object lists its fields in the order they
    were set; the order in which they are enumerated, array indices first,
    is that of [object_keys] and does not depend on where among the other
    fields an index was set. *)
Fixpoint reduce_styles (point : value)
    (entries : list (string * ColorSchemeValueScale))
    (acc : list (string * value)) : M value :=
  match entries with
  | [] => ret (VObj acc)
  | (key, valueScale) :: rest =>
      let* v := runValueScale valueScale point in
      reduce_styles point rest (map_set key v acc)
  end.

Definition getColorSchemeStyles (point : value)
    (valueScales : list (string * ColorSchemeValueScale)) : M value :=
  reduce_styles point valueScales [].

(** Every value scale of a map called in turn on [point], the results kept
    with their keys. *)
Fixpoint run_scales (point : value)
    (entries : list (string * ColorSchemeValueScale))
    : M (list (string * value)) :=
  match entries with
  | [] => ret []
  | (key, valueScale) :: rest =>
      let* v := runValueScale valueScale point in
      let* more := run_scales point rest in
      ret ((key, v) :: more)
  end.

(** [point] has a [map] property that can be called. *)
Definition callable_map (point : value) : bool :=
  match get_prop point "map" with
  | Done (VFun _ _) => true
  | _ => false
  end.

(** The element has the attribute itself. *)
Definition has_attribute (attribute : string) (r : value) : bool :=
  truthy r && negb (is_undefined (optional_prop r attribute)).

(** The element's nested data has the attribute. *)
Definition has_nested_attribute (attribute : string) (r : value) : bool :=
  truthy r && truthy (optional_prop r "data") &&
  negb (is_undefined (optional_prop (optional_prop r "data") attribute)).

(** A series without [data] to take the length of: reading [d.data.length]
    throws. *)
Definition dataless (d : value) : bool :=
  match get_prop d "data" with
  | Done dd => nullish dd
  | Throw _ => true
  end.

(** The two props differ at most in [data] and [isMultiSeries]. *)
Definition same_but_data (p q : ColorHelperProps) : Prop :=
  colorScheme q = colorScheme p /\ point q = point p /\ index q = index p /\
  active q = active p /\ scale q = scale p /\ domain q = domain p /\
  key q = key p /\ attribute q = attribute p.

(** The two props differ at most in [point], [key], [index] and [active]. *)
Definition same_but_point (p q : ColorHelperProps) : Prop :=
  colorScheme q = colorScheme p /\ data q = data p /\ scale q = scale p /\
  domain q = domain p /\ attribute q = attribute p /\
  isMultiSeries q = isMultiSeries p.

End Styles.

Definition with_domain (v : value) (p : ColorHelperProps) :=
  {| colorScheme := colorScheme p; point := point p; data := data p;
     index := index p; active := active p; scale := scale p; domain := v;
     key := key p; attribute := attribute p;
     isMultiSeries := isMultiSeries p |}.

Definition with_key (v : value) (p : ColorHelperProps) :=
  {| colorScheme := colorScheme p; point := point p; data := data p;
     index := index p; active := active p; scale := scale p;
     domain := domain p; key := v; attribute := attribute p;
     isMultiSeries := isMultiSeries p |}.

(** A series of points keyed by the given names. *)
Definition keyed_series (names : list string) : value :=
  VArr (map keyed names).

(** A host whose table has an entry that is itself a name. *)
Module Aliased.

#[export] Instance host : Host := {|
  world := unit;
  host_call code env this args w := (D3.d3_call code env this args, w);
  host_fn_prop := D3.d3_fn_prop;
  host_fn_keys _ _ := [];
  host_inherited := Builtin.inherited;
  schemes := [("brand", VStr "cybertron");
              ("cybertron", VArr [VStr "#4C86FF"; VStr "#40D3F4"])];
  scaleOrdinal := VFun D3.c_scaleOrdinal [];
  scaleQuantile := VFun D3.c_scaleQuantile [];
  uniqueBy := D3.uniqueBy_model;
  extent := D3.d3_extent
|}.

End Aliased.

(** ** Reads and calls the statements speak of *)

Section Reads.
Context `{Host}.

(** [schemes[name]], as line 65 reads it. *)
Definition scheme_entry (name : string) : value :=
  optional_prop (VObj schemes) name.

(** The calls this [getColor] makes are deterministic and without side
    effects: for a callback the call [colorScheme(point, index, active)];
    for a palette the application of the scale, whatever domain and key it
    is given, and the [map] method of data that is not an array. *)
Definition callees_pure (p : ColorHelperProps) : Prop :=
  match namedScheme (colorScheme p) with
  | VFun code env =>
      pure_det (host_call code env VUndefined [point p; index p; active p])
  | VArr palette =>
      (forall domain key,
         pure_det (applyScale (default scaleOrdinal (scale p)) (VArr palette)
                     domain key)) /\
      (forall d, isArray d = false ->
         pure_det (rangeHelper d (default "key" (attribute p))))
  | _ => True
  end.

End Reads.

(** A host with a scale that keeps a count: the scale
    [range => { const s = key => range[n++ % range.length];
                s.domain = () => s; return s }]
    over a counter [n], which is the world. *)
Module Stateful.

Definition c_counter : nat := 8%nat.
Definition c_counter_scale : nat := 9%nat.
Definition c_counter_domain : nat := 10%nat.

Definition counted (env : list value) (n : nat) : value :=
  match env with
  | [VArr range] =>
      match range with
      | [] => VUndefined
      | _ => nth (n mod List.length range) range VUndefined
      end
  | _ => VUndefined
  end.

#[export] Instance host : Host := {|
  world := nat;
  host_call code env this args w :=
    if Nat.eqb code c_counter then
      (Done (VFun c_counter_scale [hd VUndefined args]), w)
    else if Nat.eqb code c_counter_domain then
      (Done (VFun c_counter_scale env), w)
    else if Nat.eqb code c_counter_scale then (Done (counted env w), S w)
    else (D3.d3_call code env this args, w);
  host_fn_prop code env k :=
    if Nat.eqb code c_counter_scale && String.eqb k "domain"
    then VFun c_counter_domain env
    else D3.d3_fn_prop code env k;
  host_fn_keys _ _ := [];
  host_inherited := Builtin.inherited;
  schemes := [];
  scaleOrdinal := VFun D3.c_scaleOrdinal [];
  scaleQuantile := VFun D3.c_scaleQuantile [];
  uniqueBy := D3.uniqueBy_model;
  extent := D3.d3_extent
|}.

End Stateful.

(** ** Literal colour schemes *)

Section Literal.
Context `{Host}.

Lemma namedScheme_unnamed (c : value) :
  (forall name, c = VStr name -> truthy (scheme_entry name) = false) ->
  namedScheme c = c.
Proof.
  intros Hname. destruct c; try reflexivity.
  specialize (Hname s eq_refl). unfold scheme_entry, optional_prop in Hname.
  simpl in *. rewrite Hname. reflexivity.
Qed.


(** C3: a callback is called with [point], [index] and [active], in that
    order, and its outcome is the outcome of [getColor]; no other prop is
    looked at: props that agree on these three and on the callback have the
    same outcome. *)
Theorem getColor_callback (p : ColorHelperProps) (w : world)
    (code : nat) (env : list value) :
  colorScheme p = VFun code env ->
  getColor p w = host_call code env VUndefined [point p; index p; active p] w /\
  forall q : ColorHelperProps,
    colorScheme q = colorScheme p -> point q = point p ->
    index q = index p -> active q = active p ->
    getColor q w = getColor p w.
Proof.
  intros Hcs.
  assert (Hcall : forall q, colorScheme q = VFun code env ->
            getColor q w
              = host_call code env VUndefined [point q; index q; active q] w).
  { intros q Hq. unfold getColor. rewrite Hq. reflexivity. }
  split; [apply Hcall, Hcs |].
  intros q Hq Hpoint Hindex Hactive.
  rewrite (Hcall p Hcs), (Hcall q) by congruence.
  rewrite Hpoint, Hindex, Hactive. reflexivity.
Qed.

End Literal.

(** The name of a scheme stands for its palette. *)
Example getColor_named_scheme :
  @getColor Sample.counting
    (with_colorScheme (VStr "cybertron")
       (with_data (VArr [keyed "a"; keyed "b"]) (with_point (keyed "b") no_props)))
    0%nat = (Done (VStr "#40D3F4"), 0%nat).
Proof. reflexivity. Qed.



Lemma getColor_callback_witness :
  let p := with_colorScheme (VFun Sample.c_stripes [])
             (with_index (VNum 4) no_props) in
  colorScheme p = VFun Sample.c_stripes [] /\
  (@getColor Sample.counting p 0%nat =
     @host_call Sample.counting Sample.c_stripes [] VUndefined
       [point p; index p; active p] 0%nat /\
   forall q : ColorHelperProps,
     colorScheme q = colorScheme p -> point q = point p ->
     index q = index p -> active q = active p ->
     @getColor Sample.counting q 0%nat = @getColor Sample.counting p 0%nat) /\
  @getColor Sample.counting p 0%nat = (Done (VStr "even"), 1%nat).
Proof.
  intros p. split; [reflexivity |]. split.
  - apply (@getColor_callback Sample.counting p 0%nat Sample.c_stripes []).
    reflexivity.
  - reflexivity.
Defined.

(** ** Value scales *)

Section ValueScales.
Context `{Host}.

(** Calling a value scale is a case distinction on [point] alone. *)
Lemma runValueScale_cases (vs : ColorSchemeValueScale) (point : value)
    (w : world) :
  runValueScale vs point w =
    if nullish point then (Done (vs_emptyColor vs), w)
    else getColor (valueScale_props vs point) w.
Proof. destruct point; reflexivity. Qed.

(** C8: the function [getValueScale] returns, called with [undefined],
    returns [emptyColor]; it makes no call into the host, whatever the scale
    and the value domain are. *)
Theorem getValueScale_undefined (data colorScheme emptyColor : value)
    (vs : ColorSchemeValueScale) (w : world) :
  getValueScale data colorScheme emptyColor = Done vs ->
  runValueScale vs VUndefined w = (Done emptyColor, w).
Proof.
  unfold getValueScale. intros Hvs.
  destruct (valueDomain data) as [d|]; [simpl in Hvs | discriminate].
  injection Hvs as <-. reflexivity.
Qed.

(** C10, as the code has it: the function [getValueScale] returns gives
    [emptyColor] for [undefined] and for [null] without looking further.
    Any other argument, the number 0 included, is resolved by [getColor]
    with the quantile scale, the computed value domain and the argument as
    key: for a palette the quantile scale is constructed over the palette,
    given the value domain, and applied to the argument; a callback is
    called, with [undefined] arguments, and a literal is returned, and
    neither of them meets a scale. *)
Theorem getValueScale_empty_or_quantile (data colorScheme emptyColor : value)
    (vs : ColorSchemeValueScale) (point : value) (w : world) :
  getValueScale data colorScheme emptyColor = Done vs ->
  truthy (vs_valueDomain vs) = true ->
  runValueScale vs point w =
    if nullish point then (Done emptyColor, w)
    else match namedScheme colorScheme with
         | VArr palette =>
             (let* s := call scaleQuantile VUndefined [VArr palette] in
              let* m := lift (get_prop s "domain") in
              let* s' := call m s [vs_valueDomain vs] in
              call s' VUndefined [point]) w
         | VFun code env =>
             host_call code env VUndefined
               [VUndefined; VUndefined; VUndefined] w
         | literal => (Done literal, w)
         end.
Proof.
  unfold getValueScale. intros Hvs Hdom.
  destruct (valueDomain data) as [d|]; [simpl in Hvs | discriminate].
  injection Hvs as <-. simpl in Hdom. rewrite runValueScale_cases.
  destruct (nullish point) eqn:Hpoint; [reflexivity |].
  unfold getColor, valueScale_props. simpl.
  destruct (namedScheme colorScheme); try reflexivity.
  unfold getColor_domain, getColor_key. simpl. rewrite Hdom. simpl.
  destruct point; try discriminate; reflexivity.
Qed.

(** X14: with a palette and a truthy value domain, the value scale applies
    the quantile scale over the value domain to every value other than
    [undefined] and [null]; no domain is derived and no point is read. *)
Lemma valueScale_quantile (vs : ColorSchemeValueScale) (palette : list value)
    (point : value) (w : world) :
  vs_colorScheme vs = VArr palette ->
  truthy (vs_valueDomain vs) = true ->
  nullish point = false ->
  runValueScale vs point w =
    applyScale scaleQuantile (VArr palette) (vs_valueDomain vs) point w.
Proof.
  intros Hcs Hdom Hpoint. rewrite runValueScale_cases, Hpoint.
  unfold getColor, valueScale_props; simpl. rewrite Hcs; simpl.
  unfold getColor_domain, getColor_key; simpl. rewrite Hdom; simpl.
  destruct point; try discriminate; reflexivity.
Qed.

End ValueScales.

Lemma getValueScale_undefined_witness :
  @getValueScale D3.d3 readings heat (VStr "grey") = Done heat_scale /\
  @runValueScale D3.d3 heat_scale VUndefined tt = (Done (VStr "grey"), tt).
Proof.
  split; [reflexivity |].
  apply (@getValueScale_undefined D3.d3 readings heat (VStr "grey")).
  reflexivity.
Defined.

(** C10, as the specification has it, fails for a literal colour scheme:
    the value 5 is neither [undefined] nor [null], it is given the empty
    colour all the same when that is the literal, and no scale is met. *)
Lemma getValueScale_literal_empty :
  let vs := {| vs_valueDomain := VArr [VNum 0; VNum 100];
               vs_colorScheme := VStr "grey";
               vs_emptyColor := VStr "grey" |} in
  @getValueScale D3.d3 readings (VStr "grey") (VStr "grey") = Done vs /\
  nullish (VNum 5) = false /\
  @runValueScale D3.d3 vs (VNum 5) tt = (Done (vs_emptyColor vs), tt).
Proof. repeat split; reflexivity. Qed.

Lemma getValueScale_empty_or_quantile_witness :
  @getValueScale D3.d3 readings heat (VStr "grey") = Done heat_scale /\
  truthy (vs_valueDomain heat_scale) = true /\
  @runValueScale D3.d3 heat_scale (VNum 40) tt =
    @bind D3.d3 _ _ (@call D3.d3 (@scaleQuantile D3.d3) VUndefined [heat])
      (fun s =>
         @bind D3.d3 _ _ (@lift D3.d3 _ (@get_prop D3.d3 s "domain"))
           (fun m =>
              @bind D3.d3 _ _ (@call D3.d3 m s [VArr [VNum 0; VNum 100]])
                (fun s' => @call D3.d3 s' VUndefined [VNum 40]))) tt /\
  @runValueScale D3.d3 heat_scale (VNum 40) tt = (Done (VStr "orange"), tt) /\
  @runValueScale D3.d3 heat_scale (VNum 0) tt = (Done (VStr "white"), tt) /\
  @runValueScale D3.d3 heat_scale (VNum 100) tt = (Done (VStr "red"), tt) /\
  @runValueScale D3.d3 heat_scale VNull tt = (Done (VStr "grey"), tt).
Proof.
  split; [reflexivity |]. split; [reflexivity |]. split.
  - apply (@getValueScale_empty_or_quantile D3.d3 readings heat (VStr "grey")
             heat_scale (VNum 40) tt eq_refl eq_refl).
  - split; [reflexivity |]. split; [reflexivity |]. split; [reflexivity |].
    rewrite (@getValueScale_empty_or_quantile D3.d3 readings heat (VStr "grey")
               heat_scale VNull tt eq_refl eq_refl).
    reflexivity.
Defined.

(** ** Domain derivation *)

Section DomainDerivation.
Context `{Host}.

Lemma get_prop_truthy (r : value) (k : string) :
  truthy r = true -> get_prop r k = Done (optional_prop r k).
Proof. destruct r; simpl; intros Hr; try discriminate; reflexivity. Qed.

(** The callback never throws: a falsy element gives its index, a truthy
    one the entry of the specification. *)
Lemma rangeHelper_item_entry (attribute : string) (r : value) (i : nat) :
  rangeHelper_item attribute r i =
    Done (if truthy r then spec_domain_entry attribute r i
          else VNum (Z.of_nat i)).
Proof.
  unfold rangeHelper_item, spec_domain_entry.
  destruct (truthy r) eqn:Hr; [| reflexivity].
  rewrite !(get_prop_truthy r) by exact Hr. simpl.
  destruct (is_undefined (optional_prop r attribute)); simpl; [| reflexivity].
  destruct (truthy (optional_prop r "data")) eqn:Hd; simpl; [| reflexivity].
  rewrite (get_prop_truthy _ attribute Hd). simpl.
  destruct (is_undefined (optional_prop (optional_prop r "data") attribute));
    reflexivity.
Qed.

Lemma map_from_imap (f : value -> nat -> outcome value)
    (g : nat -> value -> value) (items : list value) (n : nat) :
  (forall r i, f r i = Done (g i r)) ->
  map_from f items n = Done (imap (fun i => g (n + i)%nat) items).
Proof.
  intros Hfg. revert n g Hfg.
  induction items as [|r rest IH]; intros n g Hfg; [reflexivity |].
  simpl. rewrite Hfg. simpl. rewrite (IH (S n) g Hfg). simpl.
  rewrite Nat.add_0_r. do 2 f_equal.
  apply imap_ext. intros i x _. simpl. f_equal. lia.
Qed.

Lemma rangeHelper_array (items : list value) (attribute : string) (w : world) :
  rangeHelper (VArr items) attribute w =
    (Done (VArr (imap (fun i r => if truthy r
                                  then spec_domain_entry attribute r i
                                  else VNum (Z.of_nat i)) items)), w).
Proof.
  unfold rangeHelper, lift.
  rewrite (map_from_imap _ (fun i r => if truthy r
                                       then spec_domain_entry attribute r i
                                       else VNum (Z.of_nat i))).
  - reflexivity.
  - intros r i. apply rangeHelper_item_entry.
Qed.

(** C4, as the code has it: [rangeHelper] maps an array to an array of the
    same length, without throwing and without a call into the host; the
    entry for a truthy element is [element[attribute]] when defined, else
    [element.data[attribute]] when the element has truthy nested data that
    defines it, else the index; the entry for a falsy element ([null],
    [undefined], [false], [0], the empty string) is always its index. *)
Theorem rangeHelper_entries (items : list value) (attribute : string)
    (w : world) :
  exists entries : list value,
    rangeHelper (VArr items) attribute w = (Done (VArr entries), w) /\
    List.length entries = List.length items /\
    forall (i : nat) (r : value), items !! i = Some r ->
      entries !! i = Some (if truthy r then spec_domain_entry attribute r i
                           else VNum (Z.of_nat i)).
Proof.
  eexists. split; [apply rangeHelper_array |]. split.
  - apply length_imap.
  - intros i r Hi. rewrite list_lookup_imap, Hi. reflexivity.
Qed.

End DomainDerivation.

(** C4, as the specification has it, fails on a falsy element that has the
    attribute: the empty string at position 1 has [length] 0, and
    [rangeHelper] returns its index 1. *)
Lemma rangeHelper_falsy_element :
  @rangeHelper D3.d3 (VArr [VStr "x"; VStr ""]) "length" tt =
    (Done (VArr [VNum 1; VNum 1]), tt) /\
  imap (fun i r => @spec_domain_entry D3.d3 "length" r i) [VStr "x"; VStr ""] =
    [VNum 1; VNum 0].
Proof. split; reflexivity. Qed.

(** ** The palette of the specification's example *)

(** C6: with the palette red, green, blue, the data a, b, c and the default
    attribute, domain, key and scale, the derived domain is a, b, c in data
    order and the point with key b gets green. *)
Theorem getColor_palette_example :
  let p := with_colorScheme rgb
             (with_data (VArr [keyed "a"; keyed "b"; keyed "c"])
                (with_point (keyed "b") no_props)) in
  @getColor_domain D3.d3 p tt = (Done (VArr [VStr "a"; VStr "b"; VStr "c"]), tt) /\
  @getColor D3.d3 p tt = (Done (VStr "green"), tt).
Proof. split; reflexivity. Qed.

(** ** Multi-series data *)

Lemma longest_from_spec (lens : list nat) :
  forall i m best : nat,
    (longest_from lens i m best = best /\
     forall j n', lens !! j = Some n' -> (n' <= m)%nat) \/
    (exists j n, longest_from lens i m best = (i + j)%nat /\
       lens !! j = Some n /\ (m < n)%nat /\
       forall j' n', lens !! j' = Some n' ->
         (n' <= n)%nat /\ ((j' < j)%nat -> (n' < n)%nat)).
Proof.
  induction lens as [|n rest IH]; intros i m best.
  - left. split; [reflexivity |]. intros j n' Hj. discriminate.
  - simpl. destruct (Nat.ltb_spec m n) as [Hlt | Hge].
    + right. destruct (IH (S i) n i) as [[Hk Hall] | (j & nk & Hk & Hj & Hnk & Hall)].
      * exists 0%nat, n. rewrite Hk, Nat.add_0_r.
        split; [reflexivity |]. split; [reflexivity |]. split; [exact Hlt |].
        intros [|j'] n' Hj'; simpl in Hj'.
        -- injection Hj' as <-. split; lia.
        -- split; [exact (Hall j' n' Hj') | lia].
      * exists (S j), nk. rewrite Hk.
        split; [lia |]. split; [exact Hj |]. split; [lia |].
        intros [|j'] n' Hj'; simpl in Hj'.
        -- injection Hj' as <-. split; lia.
        -- destruct (Hall j' n' Hj') as [Hle Hbefore]. split; [exact Hle |].
           intros Hlt'. apply Hbefore. lia.
    + destruct (IH (S i) m best) as [[Hk Hall] | (j & nk & Hk & Hj & Hnk & Hall)].
      * left. split; [exact Hk |].
        intros [|j'] n' Hj'; simpl in Hj'.
        -- injection Hj' as <-. exact Hge.
        -- exact (Hall j' n' Hj').
      * right. exists (S j), nk. rewrite Hk.
        split; [lia |]. split; [exact Hj |]. split; [exact Hnk |].
        intros [|j'] n' Hj'; simpl in Hj'.
        -- injection Hj' as <-. split; lia.
        -- destruct (Hall j' n' Hj') as [Hle Hbefore]. split; [exact Hle |].
           intros Hlt'. apply Hbefore. lia.
Qed.

Lemma longest_first_longest (lens : list nat) :
  lens <> [] -> first_longest lens (longest lens).
Proof.
  destruct lens as [|n rest]; [congruence | intros _]. simpl.
  destruct (longest_from_spec rest 1 n 0)
    as [[Hk Hall] | (j & nk & Hk & Hj & Hnk & Hall)]; rewrite Hk.
  - exists n. split; [reflexivity |].
    intros [|j'] n' Hj'; simpl in Hj'.
    + injection Hj' as <-. split; lia.
    + split; [exact (Hall j' n' Hj') | lia].
  - exists nk. split; [exact Hj |].
    intros [|j'] n' Hj'; simpl in Hj'.
    + injection Hj' as <-. split; lia.
    + destruct (Hall j' n' Hj') as [Hle Hbefore]. split; [exact Hle |].
      intros Hlt'. apply Hbefore. lia.
Qed.

Section MultiSeries.
Context `{Host}.

Lemma series_length_rows (s : value) (rows : list value) :
  rows_of s = Some rows ->
  series_length s = Done (VNum (Z.of_nat (List.length rows))).
Proof.
  unfold rows_of, series_length. intros Hrows.
  destruct (get_prop s "data") as [[]|]; try discriminate.
  injection Hrows as ->. reflexivity.
Qed.

Lemma series_length_count (s : value) :
  is_Some (rows_of s) ->
  series_length s = Done (VNum (Z.of_nat (row_count s))).
Proof.
  intros [rows Hrows]. unfold row_count. rewrite Hrows.
  apply series_length_rows, Hrows.
Qed.

Lemma maxIndex_from_longest (series : list value) :
  Forall (fun s => is_Some (rows_of s)) series ->
  forall i m best : nat,
    maxIndex_from series_length series (Z.of_nat i) (VNum (Z.of_nat m))
      (Z.of_nat best)
    = Done (Z.of_nat (longest_from (map row_count series) i m best)).
Proof.
  induction 1 as [|s rest Hs Hrest IH]; intros i m best; [reflexivity |].
  simpl. rewrite (series_length_count s Hs). simpl.
  unfold js_lt. simpl. rewrite orb_false_r.
  replace (Z.of_nat i + 1) with (Z.of_nat (S i)) by lia.
  destruct (Nat.ltb_spec m (row_count s)) as [Hlt | Hge].
  - replace (Z.of_nat m <? Z.of_nat (row_count s)) with true
      by (symmetry; apply Z.ltb_lt; lia).
    apply IH.
  - replace (Z.of_nat m <? Z.of_nat (row_count s)) with false
      by (symmetry; apply Z.ltb_ge; lia).
    apply IH.
Qed.

Lemma maxIndex_longest (series : list value) :
  series <> [] ->
  Forall (fun s => is_Some (rows_of s)) series ->
  maxIndex series series_length
    = Done (Z.of_nat (longest (map row_count series))).
Proof.
  intros Hne Hall. destruct series as [|s rest]; [congruence |].
  inversion Hall as [|? ? Hs Hrest]; subst.
  unfold maxIndex. simpl. rewrite (series_length_count s Hs). simpl.
  unfold js_ge. simpl. rewrite Z.leb_refl. simpl.
  apply (maxIndex_from_longest rest Hrest 1 (row_count s) 0).
Qed.

(** With multi-series data and no domain, the domain comes from the rows of
    the series at the position [maxIndex] settles on. *)
Lemma getColor_domain_multiSeries (p : ColorHelperProps) (w : world)
    (series : list value) :
  truthy (domain p) = false ->
  isMultiSeries p = Some true ->
  data p = VArr series ->
  series <> [] ->
  Forall (fun s => is_Some (rows_of s)) series ->
  exists (k : nat) (s : value) (rows : list value),
    k = longest (map row_count series) /\
    series !! k = Some s /\ rows_of s = Some rows /\
    getColor_domain p w
      = rangeHelper (VArr rows) (default "key" (attribute p)) w.
Proof.
  intros Hdom Hmulti Hdata Hne Hall.
  destruct (longest_first_longest (map row_count series)) as (n & Hk & _).
  { destruct series; [congruence | discriminate]. }
  rewrite list_lookup_fmap in Hk.
  destruct (series !! longest (map row_count series)) as [s|] eqn:Hs;
    [| discriminate].
  assert (Hrows : is_Some (rows_of s)).
  { rewrite Forall_lookup in Hall. exact (Hall _ _ Hs). }
  destruct Hrows as [rows Hrows].
  exists (longest (map row_count series)), s, rows.
  split; [reflexivity |]. split; [exact Hs |]. split; [exact Hrows |].
  unfold getColor_domain. rewrite Hdom, Hmulti, Hdata. simpl.
  unfold bind at 1. unfold bind at 1. unfold lift at 1.
  rewrite (maxIndex_longest series Hne Hall).
  unfold element.
  replace (Z.of_nat (longest (map row_count series)) <? 0) with false
    by (symmetry; apply Z.ltb_ge; lia).
  rewrite Nat2Z.id.
  rewrite (nth_lookup_Some _ _ VUndefined _ Hs).
  unfold lift. unfold rows_of in Hrows.
  destruct (get_prop s "data") as [[]|]; try discriminate.
  injection Hrows as ->. reflexivity.
Qed.

End MultiSeries.

Section Palette.
Context `{Host}.

Lemma get_prop_defined (v : value) (k : string) :
  nullish v = false -> get_prop v k = Done (optional_prop v k).
Proof. destruct v; simpl; intros Hv; try discriminate; reflexivity. Qed.

(** The palette branch of [getColor], once domain and key are known. *)
Lemma getColor_palette (p : ColorHelperProps) (w : world)
    (palette : list value) (dom k : value) :
  namedScheme (colorScheme p) = VArr palette ->
  getColor_domain p w = (Done dom, w) ->
  getColor_key p = Done k ->
  getColor p w
    = applyScale (default scaleOrdinal (scale p)) (VArr palette) dom k w.
Proof.
  intros Hcs Hdom Hkey. unfold getColor. rewrite Hcs.
  unfold bind at 1. rewrite Hdom.
  unfold bind at 1. unfold lift. rewrite Hkey. reflexivity.
Qed.


(** *** When [getColor] returns *)

Lemma getColor_domain_supplied (p : ColorHelperProps) (w : world) :
  domain_supplied p = true ->
  exists dom,
    getColor_domain p w = (Done dom, w) /\
    (if truthy (domain p) then dom = domain p else isArray dom = true).
Proof.
  unfold domain_supplied. intros Hsup.
  destruct (truthy (domain p)) eqn:Hdom.
  { exists (domain p). unfold getColor_domain. rewrite Hdom. split; reflexivity. }
  simpl in Hsup.
  destruct (data p) as [| | | | |series| |] eqn:Hdata; try discriminate.
  destruct (isMultiSeries p) as [[|]|] eqn:Hmulti; simpl in Hsup.
  - assert (Hne : series <> []) by (destruct series; [discriminate | congruence]).
    assert (Hall : Forall (fun s => is_Some (rows_of s)) series).
    { destruct series as [|s0 rest]; [discriminate |].
      rewrite Forall_forall. intros s Hin.
      rewrite forallb_forall in Hsup.
      apply list_elem_of_In in Hin. specialize (Hsup s Hin).
      unfold is_series in Hsup. destruct (rows_of s); [eauto | discriminate]. }
    destruct (getColor_domain_multiSeries p w series Hdom Hmulti Hdata Hne Hall)
      as (k & s & rows & _ & _ & _ & Hderived).
    rewrite Hderived. rewrite rangeHelper_array. eexists. split; reflexivity.
  - eexists. unfold getColor_domain. rewrite Hdom, Hmulti, Hdata. simpl.
    unfold bind, ret. rewrite rangeHelper_array. split; reflexivity.
  - eexists. unfold getColor_domain. rewrite Hdom, Hmulti, Hdata. simpl.
    unfold bind, ret. rewrite rangeHelper_array. split; reflexivity.
Qed.

Lemma getColor_key_supplied (p : ColorHelperProps) :
  key_supplied p = true -> exists k, getColor_key p = Done k.
Proof.
  unfold key_supplied, getColor_key. intros Hsup.
  destruct (is_undefined (key p)); simpl in *; [| eauto].
  rewrite get_prop_defined; [eauto |].
  destruct (nullish (point p)); [discriminate | reflexivity].
Qed.

(** C1, as the code has it: [getColor] raises no exception of its own when
    the props are well supplied.  A literal is returned; a callback's
    outcome is the outcome; for a palette the domain and the key are
    computed without an exception and without a call into the host, and
    the outcome is that of applying the scale to them. *)
Theorem getColor_returns (p : ColorHelperProps) (w : world) :
  well_supplied p = true ->
  match namedScheme (colorScheme p) with
  | VArr palette =>
      exists dom k,
        getColor_domain p w = (Done dom, w) /\
        getColor_key p = Done k /\
        getColor p w
          = applyScale (default scaleOrdinal (scale p)) (VArr palette) dom k w
  | VFun code env =>
      getColor p w
        = host_call code env VUndefined [point p; index p; active p] w
  | literal => getColor p w = (Done literal, w)
  end.
Proof.
  unfold well_supplied. intros Hsup.
  destruct (namedScheme (colorScheme p)) as [| | | | |palette| |] eqn:Hcs;
    try (unfold getColor; rewrite Hcs; reflexivity).
  apply andb_prop in Hsup. destruct Hsup as [Hdom Hkey].
  destruct (getColor_domain_supplied p w Hdom) as (dom & Hd & _).
  destruct (getColor_key_supplied p Hkey) as [k Hk].
  exists dom, k. split; [exact Hd |]. split; [exact Hk |].
  apply (getColor_palette p w palette dom k Hcs Hd Hk).
Qed.

(** Without a domain and without data, a palette makes [getColor] throw. *)
Lemma getColor_without_data (p : ColorHelperProps) (w : world)
    (palette : list value) :
  namedScheme (colorScheme p) = VArr palette ->
  truthy (domain p) = false ->
  nullish (data p) = true ->
  getColor p w = (Throw TypeError, w).
Proof.
  intros Hcs Hdom Hdata. unfold getColor. rewrite Hcs.
  unfold bind at 1, getColor_domain. rewrite Hdom. simpl.
  destruct (data p); try discriminate; reflexivity.
Qed.

End Palette.

(** The claim of C1 fails where it says it holds: a palette with neither a
    domain nor data makes [rangeHelper] read [map] off [undefined]. *)
Lemma getColor_throws_without_data :
  @getColor D3.d3 (with_colorScheme rgb (with_point (keyed "b") no_props)) tt
    = (Throw TypeError, tt).
Proof. reflexivity. Qed.

Lemma getColor_returns_witness :
  let p := with_colorScheme rgb
             (with_data (VArr [keyed "a"; keyed "b"; keyed "c"])
                (with_point (keyed "c") no_props)) in
  @well_supplied D3.d3 p = true /\
  (exists dom k,
     @getColor_domain D3.d3 p tt = (Done dom, tt) /\
     @getColor_key D3.d3 p = Done k /\
     @getColor D3.d3 p tt
       = @applyScale D3.d3 (@scaleOrdinal D3.d3) rgb dom k tt) /\
  @getColor D3.d3 p tt = (Done (VStr "blue"), tt).
Proof.
  intros p. split; [reflexivity |]. split.
  - exact (@getColor_returns D3.d3 p tt eq_refl).
  - reflexivity.
Defined.

(** With d3's ordinal scale, the scale application returns for every
    palette, every iterable domain and every key. *)
Lemma applyScale_ordinal (palette items : list value) (dom k : value) :
  D3.iterate dom = Done items ->
  @applyScale D3.d3 (@scaleOrdinal D3.d3) (VArr palette) dom k tt
    = (Done (D3.ordinal_lookup palette (fold_left D3.add_key items []) k), tt).
Proof.
  intros Hdom. unfold applyScale, bind, call, lift. simpl.
  unfold D3.d3_call at 1. simpl.
  unfold D3.d3_fn_prop. simpl.
  unfold D3.d3_call at 1. simpl. unfold D3.ordinal_domain. rewrite Hdom.
  reflexivity.
Qed.

(** So, with the default scale, a well supplied call with a palette or a
    literal returns a value. *)
Lemma getColor_default_scale_returns (p : ColorHelperProps) :
  scale p = None ->
  @well_supplied D3.d3 p = true ->
  isFunction (@namedScheme D3.d3 (colorScheme p)) = false ->
  (truthy (domain p) = true -> exists items, D3.iterate (domain p) = Done items) ->
  exists v, @getColor D3.d3 p tt = (Done v, tt).
Proof.
  intros Hscale Hsup Hfun Hiter. unfold well_supplied in Hsup.
  destruct (@namedScheme D3.d3 (colorScheme p)) as [| | | | |palette| |] eqn:Hcs;
    try discriminate;
    try (eexists; unfold getColor; rewrite Hcs; reflexivity).
  apply andb_prop in Hsup. destruct Hsup as [Hsup Hkey].
  destruct (@getColor_domain_supplied D3.d3 p tt Hsup) as (dom & Hdom & Hshape).
  destruct (@getColor_key_supplied D3.d3 p Hkey) as [k Hk].
  rewrite (@getColor_palette D3.d3 p tt palette dom k Hcs Hdom Hk), Hscale.
  change (default (@scaleOrdinal D3.d3) None) with (@scaleOrdinal D3.d3).
  assert (Hitems : exists items, D3.iterate dom = Done items).
  { destruct (truthy (domain p)).
    - subst dom. apply Hiter. reflexivity.
    - destruct dom; try discriminate. eexists. reflexivity. }
  destruct Hitems as [items Hitems].
  rewrite (applyScale_ordinal palette items dom k Hitems). eauto.
Qed.


(** ** One value scale per style property *)

Section StyledPalette.
Context `{Host}.

Lemma existsb_eqb_elem (name : string) (seen : list string) :
  existsb (String.eqb name) seen = true <-> name ∈ seen.
Proof.
  rewrite existsb_exists. split.
  - intros (x & Hin & Heq). apply String.eqb_eq in Heq. subst x.
    apply list_elem_of_In, Hin.
  - intros Hin. exists name. split; [apply list_elem_of_In, Hin |].
    apply String.eqb_refl.
Qed.

Lemma fold_set_add_spec (names : list string) :
  forall seen : list string, NoDup seen ->
    NoDup (fold_left set_add names seen) /\
    forall x, x ∈ fold_left set_add names seen <-> x ∈ seen \/ x ∈ names.
Proof.
  induction names as [|name rest IH]; intros seen Hnd; simpl.
  - split; [exact Hnd |]. intros x. rewrite elem_of_nil. tauto.
  - assert (Hstep : NoDup (set_add seen name) /\
                    forall x, x ∈ set_add seen name <-> x ∈ seen \/ x = name).
    { unfold set_add. destruct (existsb (String.eqb name) seen) eqn:Hex.
      - apply existsb_eqb_elem in Hex. split; [exact Hnd |].
        intros x. split; [tauto | intros [Hx | ->]; assumption].
      - assert (Hnot : name ∉ seen).
        { intros Hin. apply existsb_eqb_elem in Hin. congruence. }
        split.
        + apply NoDup_app. split; [exact Hnd |]. split.
          * intros x Hx Hx'. apply list_elem_of_singleton in Hx'. subst x.
            exact (Hnot Hx).
          * apply NoDup_singleton.
        + intros x. rewrite elem_of_app, list_elem_of_singleton. tauto. }
    destruct Hstep as [Hnd' Hmem].
    destruct (IH _ Hnd') as [Hnd'' Hmem'']. split; [exact Hnd'' |].
    intros x. rewrite Hmem'', Hmem, elem_of_cons. tauto.
Qed.

(** The names, each once: the de-duplicated union. *)
Lemma unique_names_spec (names : list string) :
  NoDup (unique_names names) /\
  forall x, x ∈ unique_names names <-> x ∈ names.
Proof.
  destruct (fold_set_add_spec names [] (NoDup_nil_2 (A:=string))) as [Hnd Hmem].
  split; [exact Hnd |]. intros x. unfold unique_names. rewrite Hmem.
  rewrite elem_of_nil. tauto.
Qed.

Lemma object_keys_defined (v : value) :
  nullish v = false -> object_keys v = Done (own_keys v).
Proof. destruct v; simpl; intros Hv; try discriminate; reflexivity. Qed.

Lemma flatMap_keys_defined (items : list value) :
  Forall (fun item => nullish item = false) items ->
  flatMap_keys items = Done (flat_map own_keys items).
Proof.
  induction 1 as [|item rest Hitem Hrest IH]; [reflexivity |].
  simpl. rewrite (object_keys_defined item Hitem). simpl. rewrite IH.
  reflexivity.
Qed.

Lemma map_set_fresh {V} (k : string) (v : V) (m : list (string * V)) :
  k ∉ map fst m -> map_set k v m = (m ++ [(k, v)])%list.
Proof.
  induction m as [|[k' v'] rest IH]; simpl; intros Hfresh; [reflexivity |].
  destruct (String.eqb_spec k k') as [-> | Hne].
  - exfalso. apply Hfresh. apply list_elem_of_here.
  - rewrite IH; [reflexivity |]. intros Hin. apply Hfresh.
    apply list_elem_of_further, Hin.
Qed.

Lemma forEach_property_fresh (data colorScheme emptyColor d : value)
    (names : list string) :
  valueDomain data = Done d ->
  forall valueScales : list (string * ColorSchemeValueScale),
    NoDup (map fst valueScales ++ names) ->
    forEach_property data colorScheme emptyColor names valueScales
      = Done (valueScales ++
              map (fun k => (k, property_scale d colorScheme emptyColor k))
                  names)%list.
Proof.
  intros Hd. induction names as [|k rest IH]; intros valueScales Hnd; simpl.
  - rewrite app_nil_r. reflexivity.
  - unfold getValueScale. rewrite Hd. simpl.
    apply NoDup_app in Hnd. destruct Hnd as (Hnd1 & Hdisj & Hnd2).
    assert (Hfresh : k ∉ map fst valueScales).
    { intros Hin. apply (Hdisj k Hin). apply list_elem_of_here. }
    rewrite (map_set_fresh k _ _ Hfresh).
    rewrite IH.
    + rewrite <- app_assoc. reflexivity.
    + rewrite map_app. simpl. apply NoDup_app. split; [| split].
      * apply NoDup_app. split; [exact Hnd1 |]. split; [| apply NoDup_singleton].
        intros x Hx Hx'. apply list_elem_of_singleton in Hx'. subst x.
        exact (Hfresh Hx).
      * intros x Hx Hx'. apply elem_of_app in Hx. destruct Hx as [Hx | Hx].
        -- apply (Hdisj x Hx). apply list_elem_of_further, Hx'.
        -- apply list_elem_of_singleton in Hx. subst x.
           apply NoDup_cons in Hnd2. destruct Hnd2 as [Hk _]. exact (Hk Hx').
      * apply NoDup_cons in Hnd2. destruct Hnd2 as [_ Hrest]. exact Hrest.
Qed.

(** C7, as the code has it, when the value domain of the data is computed.
    For an array whose first element has [typeof] object and none of whose
    entries is [null] or [undefined], a map is returned whose keys are the
    names [Object.keys] lists over all entries, each once, in the order of
    first occurrence, and the scale under a key is the one [getValueScale]
    builds from the palette projected to that property.  For every other
    colour scheme, whatever its entries, the map has the single key fill,
    with the scale over the whole colour scheme. *)
Theorem createColorSchemeValueScales_keys
    (data colorScheme emptyColor d : value) :
  valueDomain data = Done d ->
  (isColorSchemeObjectArray colorScheme = true ->
   Forall (fun item => nullish item = false) (palette_items colorScheme)) ->
  exists valueScales : list (string * ColorSchemeValueScale),
    createColorSchemeValueScales data colorScheme emptyColor
      = Done valueScales /\
    (isColorSchemeObjectArray colorScheme = true ->
       map fst valueScales
         = unique_names (flat_map own_keys (palette_items colorScheme)) /\
       NoDup (map fst valueScales) /\
       (forall k, k ∈ map fst valueScales <->
          exists item, item ∈ palette_items colorScheme /\ k ∈ own_keys item) /\
       (forall k vs, (k, vs) ∈ valueScales ->
          getValueScale data (getColorSchemeForProperty colorScheme k)
            emptyColor = Done vs)) /\
    (isColorSchemeObjectArray colorScheme = false ->
       exists vs, getValueScale data colorScheme emptyColor = Done vs /\
                  valueScales = [("fill", vs)]).
Proof.
  intros Hd Hitems.
  set (names := unique_names (flat_map own_keys (palette_items colorScheme))).
  destruct (unique_names_spec (flat_map own_keys (palette_items colorScheme)))
    as [Hnd Hmem]. fold names in Hnd, Hmem.
  assert (Hfill : forall c,
            getValueScale data c emptyColor
              = Done {| vs_valueDomain := d; vs_colorScheme := c;
                        vs_emptyColor := emptyColor |}).
  { intros c. unfold getValueScale. rewrite Hd. reflexivity. }
  destruct (isColorSchemeObjectArray colorScheme) eqn:Hstyled.
  - specialize (Hitems eq_refl).
    destruct colorScheme as [| | | | |items| |]; try discriminate.
    simpl in Hitems, names.
    exists (map (fun k => (k, property_scale d (VArr items) emptyColor k)) names).
    split.
    + unfold createColorSchemeValueScales. rewrite Hstyled.
      rewrite (flatMap_keys_defined items Hitems). simpl.
      rewrite (forEach_property_fresh data (VArr items) emptyColor d _ Hd);
        [reflexivity | exact Hnd].
    + split; [| discriminate]. intros _.
      assert (Hkeys : map fst (map (fun k => (k, property_scale d (VArr items)
                                                  emptyColor k)) names) = names).
      { rewrite map_map. simpl. apply map_id. }
      rewrite Hkeys. split; [reflexivity |]. split; [exact Hnd |]. split.
      * intros k. rewrite Hmem. rewrite list_elem_of_In, in_flat_map.
        split; intros (item & Hitem & Hk); exists item;
          rewrite ?list_elem_of_In in *; tauto.
      * intros k vs Hin. apply list_elem_of_In, in_map_iff in Hin.
        destruct Hin as (k' & Heq & _). injection Heq as -> <-.
        apply Hfill.
  - exists [("fill", {| vs_valueDomain := d; vs_colorScheme := colorScheme;
                        vs_emptyColor := emptyColor |})].
    split.
    + unfold createColorSchemeValueScales. rewrite Hstyled, Hfill.
      destruct colorScheme; reflexivity.
    + split; [discriminate |]. intros _. eexists. split; [apply Hfill | reflexivity].
Qed.

End StyledPalette.

(** C7, as the specification has it, fails on a palette with a [null]
    entry: its first element is a style object, and [Object.keys(null)]
    throws, so no map is returned. *)
Lemma createColorSchemeValueScales_null_entry :
  @isColorSchemeObjectArray
      (VArr [VObj [("fill", VStr "red"); ("stroke", VStr "black")]; VNull])
    = true /\
  @createColorSchemeValueScales D3.d3 readings
      (VArr [VObj [("fill", VStr "red"); ("stroke", VStr "black")]; VNull])
      (VStr "grey")
    = Throw TypeError.
Proof. split; reflexivity. Qed.

(** A string among the entries contributes the names of its indices. *)
Example createColorSchemeValueScales_mixed :
  map fst
    (match @createColorSchemeValueScales D3.d3 readings
             (VArr [VObj [("fill", VStr "red")]; VStr "tan"]) (VStr "grey") with
     | Done valueScales => valueScales
     | Throw _ => []
     end)
  = ["fill"; "0"; "1"; "2"].
Proof. reflexivity. Qed.

Lemma createColorSchemeValueScales_keys_witness :
  (@valueDomain D3.d3 readings = Done (VArr [VNum 0; VNum 100]) /\
   (isColorSchemeObjectArray styled_palette = true ->
    Forall (fun item => nullish item = false) (palette_items styled_palette))) /\
  (exists valueScales : list (string * ColorSchemeValueScale),
     @createColorSchemeValueScales D3.d3 readings styled_palette (VStr "grey")
       = Done valueScales /\
     (isColorSchemeObjectArray styled_palette = true ->
        map fst valueScales
          = unique_names
              (flat_map (@own_keys D3.d3) (palette_items styled_palette)) /\
        NoDup (map fst valueScales) /\
        (forall k, k ∈ map fst valueScales <->
           exists item, item ∈ palette_items styled_palette /\
                        k ∈ @own_keys D3.d3 item) /\
        (forall k vs, (k, vs) ∈ valueScales ->
           @getValueScale D3.d3 readings
             (@getColorSchemeForProperty D3.d3 styled_palette k) (VStr "grey")
             = Done vs)) /\
     (isColorSchemeObjectArray styled_palette = false ->
        exists vs, @getValueScale D3.d3 readings styled_palette (VStr "grey")
                     = Done vs /\
                   valueScales = [("fill", vs)])) /\
  @createColorSchemeValueScales D3.d3 readings styled_palette (VStr "grey")
    = Done [("fill", {| vs_valueDomain := VArr [VNum 0; VNum 100];
                        vs_colorScheme := VArr [VStr "red"; VStr "blue"];
                        vs_emptyColor := VStr "grey" |});
            ("stroke", {| vs_valueDomain := VArr [VNum 0; VNum 100];
                          vs_colorScheme := VArr [VStr "black"; VStr "grey"];
                          vs_emptyColor := VStr "grey" |})].
Proof.
  assert (Hitems : isColorSchemeObjectArray styled_palette = true ->
                   Forall (fun item => nullish item = false)
                     (palette_items styled_palette)).
  { intros _. repeat constructor. }
  split; [| split].
  - split; [reflexivity | exact Hitems].
  - apply (@createColorSchemeValueScales_keys D3.d3 readings styled_palette
             (VStr "grey") (VArr [VNum 0; VNum 100]));
      [reflexivity | exact Hitems].
  - reflexivity.
Defined.

(** A flat palette may hold [null]: the single fill scale is built over it
    as it is. *)
Example createColorSchemeValueScales_flat_null :
  @createColorSchemeValueScales D3.d3 readings (VArr [VStr "red"; VNull])
      (VStr "grey")
  = Done [("fill", {| vs_valueDomain := VArr [VNum 0; VNum 100];
                      vs_colorScheme := VArr [VStr "red"; VNull];
                      vs_emptyColor := VStr "grey" |})].
Proof. reflexivity. Qed.

(** ** Determinism and absence of side effects *)

Section Purity.
Context `{Host}.

Lemma pure_det_ret {A} (a : A) : pure_det (ret a).
Proof. exists (Done a). reflexivity. Qed.

Lemma pure_det_throw {A} (e : exn) : pure_det (throw (A := A) e).
Proof. exists (Throw e). reflexivity. Qed.

Lemma pure_det_lift {A} (o : outcome A) : pure_det (lift o).
Proof. exists o. reflexivity. Qed.

Lemma pure_det_bind {A B} (m : M A) (k : A -> M B) :
  pure_det m -> (forall a, pure_det (k a)) -> pure_det (bind m k).
Proof.
  intros [r Hm] Hk. destruct r as [a | e].
  - destruct (Hk a) as [r' Hka]. exists r'. intros w.
    unfold bind. rewrite Hm. apply Hka.
  - exists (Throw e). intros w. unfold bind. rewrite Hm. reflexivity.
Qed.

(** What is pure when every call into the host is. *)
Section AllCallsPure.

Hypothesis host_pure :
  forall code env this args, pure_det (host_call code env this args).

Lemma pure_det_call (f this : value) (args : list value) :
  pure_det (call f this args).
Proof.
  destruct f; simpl; try apply pure_det_throw. apply host_pure.
Qed.

(** Sequences of returns, lifts and calls are taken apart step by step. *)
Ltac pure_det_steps :=
  repeat first
    [ apply pure_det_ret | apply pure_det_throw | apply pure_det_lift
    | apply pure_det_call | apply pure_det_bind; [| intros ?] ].

Lemma pure_det_rangeHelper (point : value) (attribute : string) :
  pure_det (rangeHelper point attribute).
Proof. unfold rangeHelper. destruct point; pure_det_steps. Qed.

Lemma pure_det_applyScale (scale colorScheme domain key : value) :
  pure_det (applyScale scale colorScheme domain key).
Proof. unfold applyScale. pure_det_steps. Qed.

End AllCallsPure.

Lemma pure_det_getColor_domain (p : ColorHelperProps) :
  (forall d, isArray d = false ->
     pure_det (rangeHelper d (default "key" (attribute p)))) ->
  pure_det (getColor_domain p).
Proof.
  intros Hmap. unfold getColor_domain.
  destruct (negb (truthy (domain p))); [| apply pure_det_ret].
  apply pure_det_bind.
  - destruct (data p); try apply pure_det_ret.
    destruct (default false (isMultiSeries p)); [| apply pure_det_ret].
    apply pure_det_bind; [apply pure_det_lift | intros k; apply pure_det_lift].
  - intros d. destruct (isArray d) eqn:Harr; [| apply Hmap, Harr].
    destruct d; try discriminate. apply pure_det_lift.
Qed.

Lemma pure_det_getColor (p : ColorHelperProps) :
  callees_pure p -> pure_det (getColor p).
Proof.
  unfold callees_pure, getColor. intros Hpure.
  destruct (namedScheme (colorScheme p)); try apply pure_det_ret.
  - destruct Hpure as [Hscale Hmap].
    apply pure_det_bind; [apply pure_det_getColor_domain, Hmap | intros d].
    apply pure_det_bind; [apply pure_det_lift | intros k].
    apply Hscale.
  - exact Hpure.
Qed.

End Purity.



Lemma quiet_calls_pure (code : nat) (env : list value) (this : value)
    (args : list value) :
  @pure_det Sample.quiet _ (@host_call Sample.quiet code env this args).
Proof.
  unfold pure_det. simpl.
  destruct (Nat.eqb code Sample.c_stripes); eexists; intros w; reflexivity.
Qed.


(** ** More on domain derivation *)

Section DomainShapes.
Context `{Host}.

(** X1: [rangeHelper] throws a [TypeError] on everything that is not an
    array and has no [map] that can be called: [undefined], [null],
    numbers, strings, a single point passed instead of a series. *)
Theorem rangeHelper_without_map (point : value) (attribute : string)
    (w : world) :
  isArray point = false ->
  callable_map point = false ->
  rangeHelper point attribute w = (Throw TypeError, w).
Proof.
  unfold callable_map, rangeHelper. intros Harr Hmap.
  destruct point; try discriminate; try reflexivity;
    unfold bind, lift; simpl in *;
    match goal with
    | |- context [call ?m _ _] => destruct m; try discriminate; reflexivity
    end.
Qed.

Lemma imap_indices (items : list value) (f : nat -> value -> value)
    (g : nat -> value) :
  (forall i r, items !! i = Some r -> f i r = g i) ->
  imap f items = map g (seq 0 (List.length items)).
Proof.
  intros Hfg. apply list_eq. intros i.
  rewrite list_lookup_imap, list_lookup_fmap.
  destruct (items !! i) as [r|] eqn:Hi; simpl.
  - rewrite (Hfg i r Hi).
    assert (Hlt : (i < List.length items)%nat) by (eapply lookup_lt_Some; eauto).
    rewrite lookup_seq_lt by exact Hlt. reflexivity.
  - apply lookup_ge_None in Hi. rewrite lookup_seq_ge by exact Hi. reflexivity.
Qed.

Lemma imap_elements (items : list value) (f : nat -> value -> value)
    (g : value -> value) :
  (forall i r, items !! i = Some r -> f i r = g r) ->
  imap f items = map g items.
Proof.
  intros Hfg. apply list_eq. intros i.
  rewrite list_lookup_imap, list_lookup_fmap.
  destruct (items !! i) as [r|] eqn:Hi; simpl; [| reflexivity].
  rewrite (Hfg i r Hi). reflexivity.
Qed.

(** X2: when no element has the attribute, neither itself nor in its nested
    data, the domain is the list of positions 0, 1, ..., n - 1. *)
Theorem rangeHelper_indices (items : list value) (attribute : string)
    (w : world) :
  Forall (fun r => has_attribute attribute r = false /\
                   has_nested_attribute attribute r = false) items ->
  rangeHelper (VArr items) attribute w =
    (Done (VArr (map (fun i => VNum (Z.of_nat i))
                     (seq 0 (List.length items)))), w).
Proof.
  intros Hnone. rewrite rangeHelper_array. do 3 f_equal.
  apply imap_indices. intros i r Hi.
  rewrite Forall_lookup in Hnone. destruct (Hnone i r Hi) as [Hdirect Hnested].
  unfold has_attribute, has_nested_attribute in *.
  destruct (truthy r); [| reflexivity]. simpl in *.
  unfold spec_domain_entry. rewrite Hdirect. simpl.
  destruct (truthy (optional_prop r "data")); simpl in *; [| reflexivity].
  rewrite Hnested. reflexivity.
Qed.

(** X3: when every element has the attribute itself, the domain is the list
    of the elements' attribute values, in the order of the series; nested
    data is not looked at. *)
Theorem rangeHelper_direct_attribute (items : list value)
    (attribute : string) (w : world) :
  Forall (fun r => has_attribute attribute r = true) items ->
  rangeHelper (VArr items) attribute w =
    (Done (VArr (map (fun r => optional_prop r attribute) items)), w).
Proof.
  intros Hall. rewrite rangeHelper_array. do 3 f_equal.
  apply imap_elements. intros i r Hi.
  rewrite Forall_lookup in Hall. specialize (Hall i r Hi).
  unfold has_attribute in Hall. apply andb_prop in Hall.
  destruct Hall as [Hr Hdef]. rewrite Hr.
  unfold spec_domain_entry. rewrite Hdef. reflexivity.
Qed.

(** X4: when every element lacks the attribute itself and has it in its
    nested data, the domain is the list of the nested values, in the order
    of the series. *)
Theorem rangeHelper_nested_attribute (items : list value)
    (attribute : string) (w : world) :
  Forall (fun r => has_attribute attribute r = false /\
                   has_nested_attribute attribute r = true) items ->
  rangeHelper (VArr items) attribute w =
    (Done (VArr (map (fun r => optional_prop (optional_prop r "data") attribute)
                     items)), w).
Proof.
  intros Hall. rewrite rangeHelper_array. do 3 f_equal.
  apply imap_elements. intros i r Hi.
  rewrite Forall_lookup in Hall. destruct (Hall i r Hi) as [Hdirect Hnested].
  unfold has_attribute, has_nested_attribute in *.
  destruct (truthy r); [| discriminate]. simpl in *.
  unfold spec_domain_entry. rewrite Hdirect. simpl.
  apply andb_prop in Hnested. destruct Hnested as [Hdata Hdef].
  rewrite Hdata, Hdef. reflexivity.
Qed.

End DomainShapes.

Lemma rangeHelper_without_map_witness :
  isArray (keyed "a") = false /\
  @callable_map D3.d3 (keyed "a") = false /\
  @rangeHelper D3.d3 (keyed "a") "key" tt = (Throw TypeError, tt).
Proof.
  split; [reflexivity |]. split; [reflexivity |].
  apply (@rangeHelper_without_map D3.d3); reflexivity.
Defined.

Lemma rangeHelper_indices_witness :
  Forall (fun r => @has_attribute D3.d3 "key" r = false /\
                   @has_nested_attribute D3.d3 "key" r = false)
    [VObj [("name", VStr "a")]; VNull; VNum 7] /\
  @rangeHelper D3.d3 (VArr [VObj [("name", VStr "a")]; VNull; VNum 7]) "key" tt
    = (Done (VArr [VNum 0; VNum 1; VNum 2]), tt).
Proof.
  assert (Hnone : Forall (fun r => @has_attribute D3.d3 "key" r = false /\
                                   @has_nested_attribute D3.d3 "key" r = false)
                    [VObj [("name", VStr "a")]; VNull; VNum 7]).
  { repeat constructor. }
  split; [exact Hnone |].
  apply (@rangeHelper_indices D3.d3 _ "key" tt Hnone).
Defined.

Lemma rangeHelper_direct_attribute_witness :
  Forall (fun r => @has_attribute D3.d3 "key" r = true)
    [keyed "a"; VObj [("key", VNum 0); ("data", keyed "z")]] /\
  @rangeHelper D3.d3
      (VArr [keyed "a"; VObj [("key", VNum 0); ("data", keyed "z")]]) "key" tt
    = (Done (VArr [VStr "a"; VNum 0]), tt).
Proof.
  assert (Hall : Forall (fun r => @has_attribute D3.d3 "key" r = true)
                   [keyed "a"; VObj [("key", VNum 0); ("data", keyed "z")]]).
  { repeat constructor. }
  split; [exact Hall |].
  apply (@rangeHelper_direct_attribute D3.d3 _ "key" tt Hall).
Defined.

Lemma rangeHelper_nested_attribute_witness :
  Forall (fun r => @has_attribute D3.d3 "key" r = false /\
                   @has_nested_attribute D3.d3 "key" r = true)
    [VObj [("data", keyed "a")]; VObj [("x", VNum 1); ("data", keyed "b")]] /\
  @rangeHelper D3.d3
      (VArr [VObj [("data", keyed "a")];
             VObj [("x", VNum 1); ("data", keyed "b")]]) "key" tt
    = (Done (VArr [VStr "a"; VStr "b"]), tt).
Proof.
  assert (Hall : Forall (fun r => @has_attribute D3.d3 "key" r = false /\
                                  @has_nested_attribute D3.d3 "key" r = true)
                   [VObj [("data", keyed "a")];
                    VObj [("x", VNum 1); ("data", keyed "b")]]).
  { repeat constructor. }
  split; [exact Hall |].
  apply (@rangeHelper_nested_attribute D3.d3 _ "key" tt Hall).
Defined.

(** ** More on [getColor] *)

Section Overrides.
Context `{Host}.

(** X5: an explicit (truthy) domain is used as it is: [data] and
    [isMultiSeries] are not looked at, so that props which differ only in
    those have the same outcome. *)
Theorem getColor_explicit_domain (p q : ColorHelperProps) (w : world) :
  truthy (domain p) = true ->
  same_but_data p q ->
  getColor q w = getColor p w.
Proof.
  intros Hdom (Hcs & Hpoint & Hindex & Hactive & Hscale & Hd & Hkey & Hattr).
  unfold getColor, getColor_domain, getColor_key.
  rewrite Hcs, Hpoint, Hindex, Hactive, Hscale, Hd, Hkey, Hattr, Hdom.
  reflexivity.
Qed.

Lemma getColor_domain_same (p q : ColorHelperProps) :
  data q = data p -> domain q = domain p -> attribute q = attribute p ->
  isMultiSeries q = isMultiSeries p ->
  getColor_domain q = getColor_domain p.
Proof.
  intros Hdata Hdom Hattr Hmulti. unfold getColor_domain.
  rewrite Hdata, Hdom, Hattr, Hmulti. reflexivity.
Qed.

(** X6: for a palette, the colour depends on [point] and [key] only through
    the key that is looked up, [key] when it is not [undefined] and
    [point[attribute]] otherwise; [index] and [active] play no part. *)
Theorem getColor_key_only (p q : ColorHelperProps) (w : world)
    (palette : list value) :
  namedScheme (colorScheme p) = VArr palette ->
  same_but_point p q ->
  getColor_key q = getColor_key p ->
  getColor q w = getColor p w.
Proof.
  intros Hpal (Hcs & Hdata & Hscale & Hdom & Hattr & Hmulti) Hkey.
  unfold getColor. rewrite Hcs, Hpal, Hscale, Hkey.
  rewrite (getColor_domain_same p q Hdata Hdom Hattr Hmulti). reflexivity.
Qed.

(** X7: the name of a scheme behaves as the scheme it names: the call with
    the name has the outcome of the call with the table's entry in its
    place (an entry that is truthy and not itself the name of a scheme). *)
Theorem getColor_scheme_name (p : ColorHelperProps) (w : world)
    (name : string) (v : value) :
  colorScheme p = VStr name ->
  assoc name schemes = Some v ->
  truthy v = true ->
  namedScheme v = v ->
  getColor p w = getColor (with_colorScheme v p) w.
Proof.
  intros Hcs Hentry Htruthy Hplain. unfold getColor. simpl.
  rewrite Hcs, Hplain. simpl. rewrite Hentry, Htruthy. reflexivity.
Qed.

(** X8: a name is resolved once: when the table's entry for it is a
    non-empty string, that string is returned as a literal, also when it is
    the name of a scheme itself. *)
Theorem getColor_scheme_name_once (p : ColorHelperProps) (w : world)
    (name other : string) :
  colorScheme p = VStr name ->
  assoc name schemes = Some (VStr other) ->
  other <> "" ->
  getColor p w = (Done (VStr other), w).
Proof.
  intros Hcs Hentry Hother. unfold getColor. rewrite Hcs. simpl.
  rewrite Hentry. simpl.
  destruct (String.eqb_spec other "") as [Heq | _]; [contradiction |].
  reflexivity.
Qed.

(** X9: with [isMultiSeries], no domain and an empty [data] array, a
    palette makes [getColor] throw a [TypeError]: [maxIndex] finds no series
    and [data[-1]] is [undefined]. *)
Theorem getColor_empty_multiSeries (p : ColorHelperProps) (w : world)
    (palette : list value) :
  namedScheme (colorScheme p) = VArr palette ->
  truthy (domain p) = false ->
  isMultiSeries p = Some true ->
  data p = VArr [] ->
  getColor p w = (Throw TypeError, w).
Proof.
  intros Hpal Hdom Hmulti Hdata. unfold getColor. rewrite Hpal.
  unfold bind at 1, getColor_domain. rewrite Hdom, Hmulti, Hdata. reflexivity.
Qed.

Lemma get_prop_throws (v : value) (k : string) (e : exn) :
  get_prop v k = Throw e -> e = TypeError.
Proof. destruct v; simpl; intros Heq; congruence. Qed.

Lemma series_length_dataless (d : value) :
  dataless d = true -> series_length d = Throw TypeError.
Proof.
  unfold dataless, series_length. intros Hd.
  destruct (get_prop d "data") as [dd | e] eqn:Hdata; simpl.
  - destruct dd; try discriminate; reflexivity.
  - rewrite (get_prop_throws d "data" e Hdata). reflexivity.
Qed.

Lemma series_length_data (d : value) :
  dataless d = false -> exists v, series_length d = Done v.
Proof.
  unfold dataless, series_length. intros Hd.
  destruct (get_prop d "data") as [dd | e]; [| discriminate]. simpl.
  rewrite (get_prop_defined dd "length" Hd). eauto.
Qed.

Lemma maxIndex_from_dataless (series : list value) :
  Exists (fun d => dataless d = true) series ->
  forall (index : Z) (max : value) (best : Z),
    maxIndex_from series_length series index max best = Throw TypeError.
Proof.
  induction series as [|d rest IH]; intros Hex index max best.
  - inversion Hex.
  - simpl. destruct (dataless d) eqn:Hd.
    + rewrite (series_length_dataless d Hd). reflexivity.
    + destruct (series_length_data d Hd) as [v Hv]. rewrite Hv. simpl.
      assert (Hrest : Exists (fun d => dataless d = true) rest).
      { inversion Hex; subst; [congruence | assumption]. }
      destruct (negb (nullish v) &&
                (js_lt max v || is_undefined max && js_ge v v));
        apply IH, Hrest.
Qed.

(** X10: with [isMultiSeries] and no domain, [data] must be multi-series:
    if one of its elements is [null] or [undefined], or has no [data] to
    take the length of (a flat series of points), a palette makes
    [getColor] throw a [TypeError]. *)
Theorem getColor_dataless_series (p : ColorHelperProps) (w : world)
    (palette series : list value) :
  namedScheme (colorScheme p) = VArr palette ->
  truthy (domain p) = false ->
  isMultiSeries p = Some true ->
  data p = VArr series ->
  Exists (fun d => dataless d = true) series ->
  getColor p w = (Throw TypeError, w).
Proof.
  intros Hpal Hdom Hmulti Hdata Hex. unfold getColor. rewrite Hpal.
  unfold bind at 1, getColor_domain. rewrite Hdom, Hmulti, Hdata. simpl.
  unfold bind at 1. unfold bind at 1. unfold lift at 1. unfold maxIndex.
  rewrite (maxIndex_from_dataless series Hex). reflexivity.
Qed.

(** X11: with a palette and a domain that is given or derived, a call with
    neither a key nor a point throws a [TypeError]: the key is read off
    [undefined]. *)
Theorem getColor_without_key (p : ColorHelperProps) (w : world)
    (palette : list value) :
  namedScheme (colorScheme p) = VArr palette ->
  domain_supplied p = true ->
  key p = VUndefined ->
  nullish (point p) = true ->
  getColor p w = (Throw TypeError, w).
Proof.
  intros Hpal Hsup Hkey Hpoint. unfold getColor. rewrite Hpal.
  destruct (getColor_domain_supplied p w Hsup) as (dom & Hdom & _).
  unfold bind at 1. rewrite Hdom.
  unfold bind at 1, lift, getColor_key. rewrite Hkey. simpl.
  destruct (point p); try discriminate; reflexivity.
Qed.

End Overrides.

Lemma getColor_explicit_domain_witness :
  let p := with_domain (VArr [VStr "a"; VStr "b"; VStr "c"])
             (with_colorScheme rgb (with_point (keyed "b") no_props)) in
  let q := with_isMultiSeries true (with_data (VArr []) p) in
  truthy (domain p) = true /\
  same_but_data p q /\
  @getColor D3.d3 q tt = @getColor D3.d3 p tt /\
  @getColor D3.d3 p tt = (Done (VStr "green"), tt).
Proof.
  intros p q.
  assert (Hsame : same_but_data p q) by (repeat split).
  split; [reflexivity |]. split; [exact Hsame |]. split; [| reflexivity].
  apply (@getColor_explicit_domain D3.d3 p q tt eq_refl Hsame).
Defined.

Lemma getColor_key_only_witness :
  let p := with_colorScheme rgb
             (with_data (keyed_series ["a"; "b"; "c"])
                (with_point (keyed "c") no_props)) in
  let q := with_key (VStr "c") (with_index (VNum 9) (with_point VNull p)) in
  @namedScheme D3.d3 (colorScheme p) = rgb /\
  same_but_point p q /\
  @getColor_key D3.d3 q = @getColor_key D3.d3 p /\
  @getColor D3.d3 q tt = @getColor D3.d3 p tt /\
  @getColor D3.d3 p tt = (Done (VStr "blue"), tt).
Proof.
  intros p q.
  assert (Hsame : same_but_point p q) by (repeat split).
  split; [reflexivity |]. split; [exact Hsame |]. split; [reflexivity |].
  split; [| reflexivity].
  apply (@getColor_key_only D3.d3 p q tt
           [VStr "red"; VStr "green"; VStr "blue"] eq_refl Hsame eq_refl).
Defined.

Lemma getColor_scheme_name_witness :
  let p := with_colorScheme (VStr "cybertron")
             (with_data (keyed_series ["a"; "b"])
                (with_point (keyed "a") no_props)) in
  let v := VArr [VStr "#4C86FF"; VStr "#40D3F4"] in
  colorScheme p = VStr "cybertron" /\
  assoc "cybertron" (@schemes Sample.quiet) = Some v /\
  truthy v = true /\
  @namedScheme Sample.quiet v = v /\
  @getColor Sample.quiet p 0%nat
    = @getColor Sample.quiet (with_colorScheme v p) 0%nat /\
  @getColor Sample.quiet p 0%nat = (Done (VStr "#4C86FF"), 0%nat).
Proof.
  intros p v.
  split; [reflexivity |]. split; [reflexivity |]. split; [reflexivity |].
  split; [reflexivity |]. split; [| reflexivity].
  apply (@getColor_scheme_name Sample.quiet p 0%nat "cybertron" v);
    reflexivity.
Defined.

Lemma getColor_scheme_name_once_witness :
  let p := with_colorScheme (VStr "brand")
             (with_data (keyed_series ["a"; "b"])
                (with_point (keyed "a") no_props)) in
  colorScheme p = VStr "brand" /\
  assoc "brand" (@schemes Aliased.host) = Some (VStr "cybertron") /\
  "cybertron" <> "" /\
  @getColor Aliased.host p tt = (Done (VStr "cybertron"), tt).
Proof.
  intros p.
  split; [reflexivity |]. split; [reflexivity |]. split; [discriminate |].
  apply (@getColor_scheme_name_once Aliased.host p tt "brand" "cybertron");
    [reflexivity | reflexivity | discriminate].
Defined.

Lemma getColor_empty_multiSeries_witness :
  let p := with_isMultiSeries true
             (with_colorScheme rgb
                (with_data (VArr []) (with_point (keyed "a") no_props))) in
  @namedScheme D3.d3 (colorScheme p) = rgb /\
  truthy (domain p) = false /\
  isMultiSeries p = Some true /\
  data p = VArr [] /\
  @getColor D3.d3 p tt = (Throw TypeError, tt).
Proof.
  intros p. repeat (split; [reflexivity |]).
  apply (@getColor_empty_multiSeries D3.d3 p tt
           [VStr "red"; VStr "green"; VStr "blue"]); reflexivity.
Defined.

Lemma getColor_dataless_series_witness :
  let p := with_isMultiSeries true
             (with_colorScheme rgb
                (with_data (keyed_series ["a"; "b"])
                   (with_point (keyed "a") no_props))) in
  @namedScheme D3.d3 (colorScheme p) = rgb /\
  truthy (domain p) = false /\
  isMultiSeries p = Some true /\
  data p = VArr [keyed "a"; keyed "b"] /\
  Exists (fun d => @dataless D3.d3 d = true) [keyed "a"; keyed "b"] /\
  @getColor D3.d3 p tt = (Throw TypeError, tt).
Proof.
  intros p.
  assert (Hex : Exists (fun d => @dataless D3.d3 d = true)
                  [keyed "a"; keyed "b"]).
  { apply Exists_cons_hd. reflexivity. }
  repeat (split; [reflexivity |]). split; [exact Hex |].
  apply (@getColor_dataless_series D3.d3 p tt
           [VStr "red"; VStr "green"; VStr "blue"] [keyed "a"; keyed "b"]);
    [reflexivity | reflexivity | reflexivity | reflexivity | exact Hex].
Defined.

Lemma getColor_without_key_witness :
  let p := with_colorScheme rgb
             (with_data (keyed_series ["a"; "b"]) no_props) in
  @namedScheme D3.d3 (colorScheme p) = rgb /\
  @domain_supplied D3.d3 p = true /\
  key p = VUndefined /\
  nullish (point p) = true /\
  @getColor D3.d3 p tt = (Throw TypeError, tt).
Proof.
  intros p. repeat (split; [reflexivity |]).
  apply (@getColor_without_key D3.d3 p tt
           [VStr "red"; VStr "green"; VStr "blue"]); reflexivity.
Defined.

(** ** More on value scales *)

Section ValueScaleSchemes.
Context `{Host}.

(** X12: a value scale over a literal colour scheme (not an array, not a
    function, not a string for which [schemes[colorScheme]] is truthy)
    gives that literal for every value other than [undefined] and [null],
    whatever the value and the value domain are, without a call into the
    host. *)
Theorem valueScale_literal (vs : ColorSchemeValueScale) (point : value)
    (w : world) :
  isArray (vs_colorScheme vs) = false ->
  isFunction (vs_colorScheme vs) = false ->
  (forall name, vs_colorScheme vs = VStr name ->
                truthy (scheme_entry name) = false) ->
  nullish point = false ->
  runValueScale vs point w = (Done (vs_colorScheme vs), w).
Proof.
  intros Harr Hfun Hname Hpoint.
  rewrite runValueScale_cases, Hpoint. unfold getColor. simpl.
  rewrite (namedScheme_unnamed _ Hname).
  destruct (vs_colorScheme vs); try discriminate; reflexivity.
Qed.

(** X13: a callback used as the colour scheme of a value scale never sees
    the value: it is called with [undefined] for [point], [index] and
    [active], so that all values other than [undefined] and [null] have the
    outcome of that one call. *)
Theorem valueScale_callback_blind (vs : ColorSchemeValueScale)
    (code : nat) (env : list value) (point : value) (w : world) :
  vs_colorScheme vs = VFun code env ->
  nullish point = false ->
  runValueScale vs point w =
    host_call code env VUndefined [VUndefined; VUndefined; VUndefined] w.
Proof.
  intros Hcs Hpoint. rewrite runValueScale_cases, Hpoint.
  unfold getColor. simpl. rewrite Hcs. reflexivity.
Qed.

End ValueScaleSchemes.

Lemma valueScale_literal_witness :
  let vs := {| vs_valueDomain := VArr [VNum 0; VNum 100];
               vs_colorScheme := VStr "tomato";
               vs_emptyColor := VStr "grey" |} in
  isArray (vs_colorScheme vs) = false /\
  isFunction (vs_colorScheme vs) = false /\
  (forall name, vs_colorScheme vs = VStr name ->
                truthy (@scheme_entry Sample.quiet name) = false) /\
  nullish (VNum 0) = false /\
  @runValueScale Sample.quiet vs (VNum 0) 5%nat = (Done (VStr "tomato"), 5%nat).
Proof.
  intros vs.
  assert (Hname : forall name, vs_colorScheme vs = VStr name ->
                  truthy (@scheme_entry Sample.quiet name) = false).
  { intros name Heq. injection Heq as <-. reflexivity. }
  split; [reflexivity |]. split; [reflexivity |]. split; [exact Hname |].
  split; [reflexivity |].
  apply (@valueScale_literal Sample.quiet vs (VNum 0) 5%nat);
    [reflexivity | reflexivity | exact Hname | reflexivity].
Defined.

Lemma valueScale_callback_blind_witness :
  let vs := {| vs_valueDomain := VArr [VNum 0; VNum 100];
               vs_colorScheme := VFun Sample.c_stripes [];
               vs_emptyColor := VStr "grey" |} in
  vs_colorScheme vs = VFun Sample.c_stripes [] /\
  nullish (VNum 4) = false /\
  @runValueScale Sample.quiet vs (VNum 4) 0%nat =
    @host_call Sample.quiet Sample.c_stripes [] VUndefined
      [VUndefined; VUndefined; VUndefined] 0%nat /\
  @runValueScale Sample.quiet vs (VNum 4) 0%nat = (Done (VStr "odd"), 0%nat).
Proof.
  intros vs. split; [reflexivity |]. split; [reflexivity |].
  split; [| reflexivity].
  apply (@valueScale_callback_blind Sample.quiet vs Sample.c_stripes []
           (VNum 4) 0%nat); reflexivity.
Defined.

Lemma valueScale_quantile_witness :
  vs_colorScheme heat_scale = heat /\
  truthy (vs_valueDomain heat_scale) = true /\
  nullish (VNum 40) = false /\
  @runValueScale D3.d3 heat_scale (VNum 40) tt =
    @applyScale D3.d3 (@scaleQuantile D3.d3) heat
      (vs_valueDomain heat_scale) (VNum 40) tt /\
  @runValueScale D3.d3 heat_scale (VNum 40) tt = (Done (VStr "orange"), tt).
Proof.
  split; [reflexivity |]. split; [reflexivity |]. split; [reflexivity |].
  split; [| reflexivity].
  apply (@valueScale_quantile D3.d3 heat_scale
           [VStr "white"; VStr "orange"; VStr "red"] (VNum 40) tt);
    reflexivity.
Defined.

(** ** More on the scales of a styled palette *)

Section ScaleMaps.
Context `{Host}.

(** X15: a styled palette whose entries have no properties gives the empty
    map, and [data] is not looked at: no value scale is built. *)
Theorem createColorSchemeValueScales_no_keys (data emptyColor : value)
    (items : list value) :
  isColorSchemeObjectArray (VArr items) = true ->
  Forall (fun item => nullish item = false) items ->
  flat_map own_keys items = [] ->
  createColorSchemeValueScales data (VArr items) emptyColor = Done [].
Proof.
  intros Hstyled Hitems Hkeys. unfold createColorSchemeValueScales.
  rewrite Hstyled, (flatMap_keys_defined items Hitems), Hkeys. reflexivity.
Qed.

Lemma getValueScale_throws (data colorScheme emptyColor : value) (err : exn) :
  valueDomain data = Throw err ->
  getValueScale data colorScheme emptyColor = Throw err.
Proof. intros Hd. unfold getValueScale. rewrite Hd. reflexivity. Qed.

Lemma unique_names_nonempty (names : list string) :
  names <> [] -> unique_names names <> [].
Proof.
  destruct names as [|name rest]; [congruence | intros _ Hnil].
  destruct (unique_names_spec (name :: rest)) as [_ Hmem].
  assert (Hin : name ∈ unique_names (name :: rest))
    by (apply Hmem, list_elem_of_here).
  rewrite Hnil in Hin. apply elem_of_nil in Hin. exact Hin.
Qed.

(** X16: when the value domain of the data cannot be computed ([uniqueBy]
    or [extent] throws), [createColorSchemeValueScales] throws the same
    exception as soon as there is a scale to build: for every colour scheme
    that is not a styled palette, whatever its entries, and for a styled
    palette without [null] or [undefined] entries that has at least one
    property. *)
Theorem createColorSchemeValueScales_throws
    (data colorScheme emptyColor : value) (err : exn) :
  valueDomain data = Throw err ->
  (isColorSchemeObjectArray colorScheme = true ->
   Forall (fun item => nullish item = false) (palette_items colorScheme) /\
   flat_map own_keys (palette_items colorScheme) <> []) ->
  createColorSchemeValueScales data colorScheme emptyColor = Throw err.
Proof.
  intros Hd Hstyle. unfold createColorSchemeValueScales.
  destruct (isColorSchemeObjectArray colorScheme) eqn:Hstyled.
  - destruct (Hstyle eq_refl) as [Hitems Hkeys].
    destruct colorScheme as [| | | | |items| |]; try discriminate.
    simpl in Hitems, Hkeys. rewrite (flatMap_keys_defined items Hitems). simpl.
    pose proof (unique_names_nonempty _ Hkeys) as Hne.
    destruct (unique_names (flat_map own_keys items)) as [|k rest];
      [congruence |].
    simpl. rewrite (getValueScale_throws _ _ _ err Hd). reflexivity.
  - rewrite (getValueScale_throws _ _ _ err Hd).
    destruct colorScheme; reflexivity.
Qed.

(** X17: projecting to a property leaves alone whatever is not a palette of
    style objects: a colour scheme that is not an array, and an array none
    of whose entries has [typeof] object (a flat palette of colours). *)
Theorem getColorSchemeForProperty_flat (colorScheme : value)
    (colorSchemeProperty : string) :
  Forall (fun item => String.eqb (typeof item) "object" = false)
    (palette_items colorScheme) ->
  getColorSchemeForProperty colorScheme colorSchemeProperty = colorScheme.
Proof.
  intros Hflat. destruct colorScheme as [| | | | |items| |]; try reflexivity.
  simpl in *. f_equal.
  induction Hflat as [|item rest Hitem Hrest IH]; [reflexivity |].
  simpl. rewrite Hitem, IH. reflexivity.
Qed.

End ScaleMaps.

Lemma createColorSchemeValueScales_no_keys_witness :
  isColorSchemeObjectArray (VArr [VObj []; VObj []]) = true /\
  Forall (fun item => nullish item = false) [VObj []; VObj []] /\
  flat_map (@own_keys D3.d3) [VObj []; VObj []] = [] /\
  @createColorSchemeValueScales D3.d3 VUndefined (VArr [VObj []; VObj []])
      (VStr "grey") = Done [].
Proof.
  assert (Hitems : Forall (fun item => nullish item = false) [VObj []; VObj []]).
  { repeat constructor. }
  split; [reflexivity |]. split; [exact Hitems |]. split; [reflexivity |].
  apply (@createColorSchemeValueScales_no_keys D3.d3 VUndefined (VStr "grey")
           [VObj []; VObj []] eq_refl Hitems eq_refl).
Defined.

Lemma createColorSchemeValueScales_throws_witness :
  (@valueDomain D3.d3 VUndefined = Throw TypeError /\
   (isColorSchemeObjectArray styled_palette = true ->
    Forall (fun item => nullish item = false) (palette_items styled_palette) /\
    flat_map (@own_keys D3.d3) (palette_items styled_palette) <> []) /\
   @createColorSchemeValueScales D3.d3 VUndefined styled_palette (VStr "grey")
     = Throw TypeError) /\
  ((isColorSchemeObjectArray (VArr [VStr "red"; VNull]) = true ->
    Forall (fun item => nullish item = false)
      (palette_items (VArr [VStr "red"; VNull])) /\
    flat_map (@own_keys D3.d3) (palette_items (VArr [VStr "red"; VNull]))
      <> []) /\
   @createColorSchemeValueScales D3.d3 VUndefined (VArr [VStr "red"; VNull])
     (VStr "grey") = Throw TypeError).
Proof.
  assert (Hstyled : isColorSchemeObjectArray styled_palette = true ->
            Forall (fun item => nullish item = false)
              (palette_items styled_palette) /\
            flat_map (@own_keys D3.d3) (palette_items styled_palette) <> []).
  { intros _. split; [repeat constructor | discriminate]. }
  assert (Hflat : isColorSchemeObjectArray (VArr [VStr "red"; VNull]) = true ->
            Forall (fun item => nullish item = false)
              (palette_items (VArr [VStr "red"; VNull])) /\
            flat_map (@own_keys D3.d3)
              (palette_items (VArr [VStr "red"; VNull])) <> []).
  { intros Hno. discriminate Hno. }
  split.
  - split; [reflexivity |]. split; [exact Hstyled |].
    apply (@createColorSchemeValueScales_throws D3.d3 VUndefined
             styled_palette (VStr "grey") TypeError eq_refl Hstyled).
  - split; [exact Hflat |].
    apply (@createColorSchemeValueScales_throws D3.d3 VUndefined
             (VArr [VStr "red"; VNull]) (VStr "grey") TypeError eq_refl Hflat).
Defined.

Lemma getColorSchemeForProperty_flat_witness :
  Forall (fun item => String.eqb (typeof item) "object" = false)
    (palette_items rgb) /\
  @getColorSchemeForProperty D3.d3 rgb "stroke" = rgb.
Proof.
  assert (Hflat : Forall (fun item => String.eqb (typeof item) "object" = false)
                    (palette_items rgb)).
  { repeat constructor. }
  split; [exact Hflat |].
  apply (@getColorSchemeForProperty_flat D3.d3 rgb "stroke" Hflat).
Defined.

(** ** Style objects *)

Section StyleObjects.
Context `{Host}.

Lemma reduce_styles_fresh (point : value)
    (entries : list (string * ColorSchemeValueScale)) :
  forall (acc : list (string * value)) (w : world),
    NoDup (map fst acc ++ map fst entries) ->
    reduce_styles point entries acc w =
      bind (run_scales point entries)
           (fun props => ret (VObj (acc ++ props)%list)) w.
Proof.
  induction entries as [|[k vs] rest IH]; intros acc w Hnd.
  - simpl. unfold bind, ret. rewrite app_nil_r. reflexivity.
  - simpl in *. unfold bind at 1 2 3.
    destruct (runValueScale vs point w) as [[v | e] w']; [| reflexivity].
    assert (Hfresh : k ∉ map fst acc).
    { apply NoDup_app in Hnd. destruct Hnd as (_ & Hdisj & _).
      intros Hin. apply (Hdisj k Hin). apply list_elem_of_here. }
    rewrite (map_set_fresh k v acc Hfresh). rewrite IH.
    + unfold bind, ret.
      destruct (run_scales point rest w') as [[props | e] w'']; [| reflexivity].
      rewrite <- app_assoc. reflexivity.
    + rewrite map_app. simpl. rewrite <- app_assoc. exact Hnd.
Qed.

(** X18: for a map (its keys are distinct), the style object has exactly
    one property per entry, and reading it gives what that entry's value
    scale returns for the point; the scales are called in the order of the
    map, and the first exception among them is the outcome. *)
Theorem getColorSchemeStyles_properties (point : value)
    (valueScales : list (string * ColorSchemeValueScale)) (w : world) :
  NoDup (map fst valueScales) ->
  match run_scales point valueScales w with
  | (Done props, w') =>
      exists fields,
        getColorSchemeStyles point valueScales w = (Done (VObj fields), w') /\
        forall k, assoc k fields = assoc k props
  | (Throw e, w') =>
      getColorSchemeStyles point valueScales w = (Throw e, w')
  end.
Proof.
  intros Hnd. unfold getColorSchemeStyles.
  rewrite (reduce_styles_fresh point valueScales [] w Hnd). unfold bind, ret.
  destruct (run_scales point valueScales w) as [[props | e] w'];
    [| reflexivity].
  exists props. split; reflexivity.
Qed.

Lemma run_scales_nullish (point : value)
    (entries : list (string * ColorSchemeValueScale)) (w : world) :
  nullish point = true ->
  run_scales point entries w =
    (Done (map (fun kv => (fst kv, vs_emptyColor (snd kv))) entries), w).
Proof.
  intros Hpoint. induction entries as [|[k vs] rest IH]; [reflexivity |].
  simpl. unfold bind at 1. rewrite runValueScale_cases, Hpoint.
  unfold bind at 1. rewrite IH. reflexivity.
Qed.

Lemma forEach_property_throws (data colorScheme emptyColor : value)
    (err : exn) (names : list string)
    (valueScales : list (string * ColorSchemeValueScale)) :
  valueDomain data = Throw err ->
  names <> [] ->
  forEach_property data colorScheme emptyColor names valueScales = Throw err.
Proof.
  intros Hd Hne. destruct names as [|k rest]; [congruence |].
  simpl. rewrite (getValueScale_throws _ _ _ err Hd). reflexivity.
Qed.

(** What a returned map looks like: distinct keys, and the empty colour in
    every scale. *)
Lemma createColorSchemeValueScales_shape (data colorScheme emptyColor : value)
    (valueScales : list (string * ColorSchemeValueScale)) :
  createColorSchemeValueScales data colorScheme emptyColor = Done valueScales ->
  NoDup (map fst valueScales) /\
  Forall (fun kv => vs_emptyColor (snd kv) = emptyColor) valueScales.
Proof.
  assert (Hfill : forall vs,
            getValueScale data colorScheme emptyColor = Done vs ->
            NoDup (map fst [("fill", vs)]) /\
            Forall (fun kv => vs_emptyColor (snd kv) = emptyColor)
              [("fill", vs)]).
  { intros vs Hvs. unfold getValueScale in Hvs.
    destruct (valueDomain data); [| discriminate]. injection Hvs as <-.
    split; [apply NoDup_singleton | repeat constructor]. }
  unfold createColorSchemeValueScales. intros Hres.
  destruct (isColorSchemeObjectArray colorScheme) eqn:Hstyled.
  - destruct colorScheme as [| | | | |items| |]; try discriminate.
    destruct (flatMap_keys items) as [names | e]; [| discriminate].
    simpl in Hres.
    destruct (unique_names_spec names) as [Hnd _].
    destruct (valueDomain data) as [d | err] eqn:Hd.
    + rewrite (forEach_property_fresh data (VArr items) emptyColor d _ Hd)
        in Hres by exact Hnd.
      injection Hres as <-. simpl. rewrite map_map. simpl. rewrite map_id.
      split; [exact Hnd |].
      apply Forall_forall. intros kv Hin.
      apply list_elem_of_In, in_map_iff in Hin.
      destruct Hin as (k & <- & _). reflexivity.
    + destruct (unique_names names) as [|k rest] eqn:Hnames.
      * injection Hres as <-. split; constructor.
      * rewrite (forEach_property_throws data (VArr items) emptyColor err
                   (k :: rest) [] Hd) in Hres by discriminate.
        discriminate.
  - destruct (getValueScale data colorScheme emptyColor) as [vs | e] eqn:Hvs.
    + assert (Hone : valueScales = [("fill", vs)])
        by (destruct colorScheme; simpl in Hres; congruence).
      subst valueScales. apply Hfill. reflexivity.
    + destruct colorScheme; discriminate.
Qed.

(** X19: the styles of a missing point: on the map
    [createColorSchemeValueScales] returns, [getColorSchemeStyles] gives
    [undefined] and [null] an object with every property of the map set to
    the empty colour, without a call into the host. *)
Theorem getColorSchemeStyles_empty_point
    (data colorScheme emptyColor point : value)
    (valueScales : list (string * ColorSchemeValueScale)) (w : world) :
  createColorSchemeValueScales data colorScheme emptyColor = Done valueScales ->
  nullish point = true ->
  getColorSchemeStyles point valueScales w =
    (Done (VObj (map (fun kv => (fst kv, emptyColor)) valueScales)), w).
Proof.
  intros Hres Hpoint.
  destruct (createColorSchemeValueScales_shape _ _ _ _ Hres) as [Hnd Hempty].
  unfold getColorSchemeStyles.
  rewrite (reduce_styles_fresh point valueScales [] w) by exact Hnd.
  unfold bind. rewrite (run_scales_nullish point valueScales w Hpoint).
  unfold ret. simpl. do 3 f_equal.
  apply map_ext_Forall. eapply Forall_impl; [exact Hempty |].
  intros kv Hkv. simpl. rewrite Hkv. reflexivity.
Qed.

End StyleObjects.

Lemma getColorSchemeStyles_properties_witness :
  let scales := [("fill", {| vs_valueDomain := VArr [VNum 0; VNum 100];
                             vs_colorScheme := VArr [VStr "red"; VStr "blue"];
                             vs_emptyColor := VStr "grey" |});
                 ("stroke", {| vs_valueDomain := VArr [VNum 0; VNum 100];
                               vs_colorScheme := VArr [VStr "black"; VStr "grey"];
                               vs_emptyColor := VStr "grey" |})] in
  NoDup (map fst scales) /\
  @run_scales D3.d3 (VNum 80) scales tt
    = (Done [("fill", VStr "blue"); ("stroke", VStr "grey")], tt) /\
  exists fields,
    @getColorSchemeStyles D3.d3 (VNum 80) scales tt = (Done (VObj fields), tt) /\
    forall k, assoc k fields
              = assoc k [("fill", VStr "blue"); ("stroke", VStr "grey")].
Proof.
  intros scales.
  assert (Hnd : NoDup (map fst scales)).
  { simpl. apply NoDup_cons. split.
    - intros Hin. apply list_elem_of_singleton in Hin. discriminate.
    - apply NoDup_singleton. }
  split; [exact Hnd |]. split; [reflexivity |].
  exact (@getColorSchemeStyles_properties D3.d3 (VNum 80) scales tt Hnd).
Defined.

Lemma getColorSchemeStyles_empty_point_witness :
  (exists valueScales,
     @createColorSchemeValueScales D3.d3 readings styled_palette (VStr "grey")
       = Done valueScales /\
     nullish VNull = true /\
     @getColorSchemeStyles D3.d3 VNull valueScales tt =
       (Done (VObj (map (fun kv => (fst kv, VStr "grey")) valueScales)), tt)) /\
  (exists valueScales,
     @createColorSchemeValueScales D3.d3 readings styled_palette (VStr "grey")
       = Done valueScales /\
     @getColorSchemeStyles D3.d3 VNull valueScales tt =
       (Done (VObj [("fill", VStr "grey"); ("stroke", VStr "grey")]), tt)).
Proof.
  split.
  - eexists. split; [reflexivity |]. split; [reflexivity |].
    apply (@getColorSchemeStyles_empty_point D3.d3 readings styled_palette
             (VStr "grey") VNull _ tt); reflexivity.
  - eexists. split; reflexivity.
Defined.

(** ** Colours in data order *)

Section OrdinalCycle.

Lemma keyed_series_domain (names : list string) :
  @rangeHelper D3.d3 (keyed_series names) "key" tt
    = (Done (VArr (map VStr names)), tt).
Proof.
  unfold keyed_series. rewrite rangeHelper_array. do 3 f_equal.
  apply list_eq. intros i.
  rewrite list_lookup_imap, !list_lookup_fmap.
  destruct (names !! i); reflexivity.
Qed.

Lemma existsb_same_key_names (name : string) (seen : list string) :
  name ∉ seen -> existsb (D3.same_key (VStr name)) (map VStr seen) = false.
Proof.
  induction seen as [|n rest IH]; intros Hnot; [reflexivity |].
  simpl. destruct (String.eqb_spec name n) as [-> | Hne].
  - exfalso. apply Hnot, list_elem_of_here.
  - simpl. apply IH. intros Hin. apply Hnot, list_elem_of_further, Hin.
Qed.

(** Distinct names make a domain without repetition: nothing is dropped. *)
Lemma add_key_distinct (names : list string) :
  forall seen : list string,
    NoDup (seen ++ names) ->
    fold_left D3.add_key (map VStr names) (map VStr seen)
      = map VStr (seen ++ names).
Proof.
  induction names as [|name rest IH]; intros seen Hnd; simpl.
  - rewrite app_nil_r. reflexivity.
  - assert (Hnot : name ∉ seen).
    { apply NoDup_app in Hnd. destruct Hnd as (_ & Hdisj & _).
      intros Hin. apply (Hdisj name Hin), list_elem_of_here. }
    unfold D3.add_key at 2. rewrite (existsb_same_key_names name seen Hnot).
    replace (map VStr seen ++ [VStr name])%list with (map VStr (seen ++ [name]))
      by (rewrite map_app; reflexivity).
    rewrite IH.
    + rewrite <- app_assoc. reflexivity.
    + rewrite <- app_assoc. exact Hnd.
Qed.

Lemma position_distinct (names : list string) :
  forall (i k : nat) (name : string),
    NoDup names -> names !! i = Some name ->
    D3.position (VStr name) (map VStr names) k = Some (k + i)%nat.
Proof.
  induction names as [|n rest IH]; intros i k name Hnd Hi; [discriminate |].
  apply NoDup_cons in Hnd. destruct Hnd as [Hn Hrest].
  destruct i as [|i]; simpl in *.
  - injection Hi as ->. rewrite String.eqb_refl, Nat.add_0_r. reflexivity.
  - destruct (String.eqb_spec name n) as [-> | Hne].
    + exfalso. apply Hn. eapply list_elem_of_lookup_2, Hi.
    + rewrite (IH i (S k) name Hrest Hi). f_equal. lia.
Qed.

(** X20: with the default ordinal scale, colours go to the points in the
    order of the data and start over when the palette is used up: for a
    series of points with distinct keys and no explicit domain, the point
    at position [i] gets the colour at position [i mod n] of a palette of
    [n] colours. *)
Theorem getColor_ordinal_cycle (palette : list value) (names : list string)
    (i : nat) (name : string) :
  palette <> [] ->
  NoDup names ->
  names !! i = Some name ->
  @getColor D3.d3
    (with_colorScheme (VArr palette)
       (with_data (keyed_series names) (with_point (keyed name) no_props))) tt
  = (Done (nth (i mod List.length palette) palette VUndefined), tt).
Proof.
  intros Hpal Hnd Hi.
  rewrite (@getColor_palette D3.d3 _ tt palette (VArr (map VStr names))
             (VStr name)).
  - change (default (@scaleOrdinal D3.d3) (scale _)) with (@scaleOrdinal D3.d3).
    rewrite (applyScale_ordinal palette (map VStr names)
               (VArr (map VStr names)) (VStr name) eq_refl).
    pose proof (add_key_distinct names [] Hnd) as Hfold. simpl in Hfold.
    rewrite Hfold.
    unfold D3.ordinal_lookup.
    rewrite (position_distinct names i 0 name Hnd Hi). simpl.
    destruct palette; [congruence | reflexivity].
  - reflexivity.
  - unfold getColor_domain. simpl. unfold bind, ret.
    apply keyed_series_domain.
  - reflexivity.
Qed.

End OrdinalCycle.

Lemma getColor_ordinal_cycle_witness :
  [VStr "red"; VStr "green"] <> [] /\
  NoDup ["a"; "b"; "c"] /\
  ["a"; "b"; "c"] !! 2%nat = Some "c" /\
  @getColor D3.d3
    (with_colorScheme (VArr [VStr "red"; VStr "green"])
       (with_data (keyed_series ["a"; "b"; "c"])
          (with_point (keyed "c") no_props))) tt
  = (Done (VStr "red"), tt).
Proof.
  assert (Hnd : NoDup ["a"; "b"; "c"]).
  { repeat (apply NoDup_cons; split;
            [rewrite ?elem_of_cons, elem_of_nil; intros Hin;
             repeat destruct Hin as [Hin | Hin]; try discriminate; exact Hin |]).
    apply NoDup_nil_2. }
  split; [discriminate |]. split; [exact Hnd |]. split; [reflexivity |].
  apply (@getColor_ordinal_cycle [VStr "red"; VStr "green"] ["a"; "b"; "c"]
           2%nat "c"); [discriminate | exact Hnd | reflexivity].
Defined.
